(** * ChatGuard: a shallow embedding of the moderation engine of ChatGuard.py

    The development follows the layout of the Python module: the Python
    primitives the code relies on ([Py]), the duration parser
    ([parse_time]), the remote layer with its exceptions and the handler
    monad [M], then the helpers and the four moderation handlers, the
    vocabulary of the properties, and finally the properties.

    Text is carried as Rocq [string]s (byte sequences, UTF-8 for the
    literals of the source).  The character classes of Python that the code
    uses ([\d] of [re], the whitespace of [str.split] and [str.strip]) are
    modelled on their ASCII part, which is all of them for code points
    below 128. *)

From Stdlib Require Import ZArith List String Ascii Bool Lia.
From Stdlib Require Import DecimalString DecimalPos.
Import ListNotations.

Open Scope string_scope.
Open Scope Z_scope.

(** ** Exceptions and results *)

(** The exception classes the module distinguishes or can meet.  All of them
    derive from [Exception]; [BaseException]-only signals (cancellation,
    keyboard interrupt) are not part of the model. *)
Inductive exn_class : Type :=
| TelegramBadRequest
| ClientConnectorError
| AttributeError
| OverflowError
| OtherException.

Record exn : Type := Exn { exn_kind : exn_class; exn_str : string }.

Definition exn_class_eqb (a b : exn_class) : bool :=
  match a, b with
  | TelegramBadRequest, TelegramBadRequest
  | ClientConnectorError, ClientConnectorError
  | AttributeError, AttributeError
  | OverflowError, OverflowError
  | OtherException, OtherException => true
  | _, _ => false
  end.

(** What running a piece of Python gives: a value, or a raised exception. *)
Inductive outcome (A : Type) : Type :=
| Ret (a : A)
| Raise (e : exn).
Arguments Ret {A} a.
Arguments Raise {A} e.

Definition obind {A B} (o : outcome A) (k : A -> outcome B) : outcome B :=
  match o with
  | Ret a => k a
  | Raise e => Raise e
  end.

(** The monad interface shared by [outcome] and by the handler monad. *)
Class Monad (m : Type -> Type) : Type := {
  ret : forall {A}, A -> m A;
  bind : forall {A B}, m A -> (A -> m B) -> m B
}.

Declare Scope monad_scope.
Delimit Scope monad_scope with monad.
Notation "x <- c ;; k" := (bind c (fun x => k))
  (at level 61, c at next level, right associativity) : monad_scope.
Notation "c ;; k" := (bind c (fun _ => k))
  (at level 61, right associativity) : monad_scope.
Open Scope monad_scope.

#[global] Instance outcome_Monad : Monad outcome :=
  {| ret := @Ret; bind := @obind |}.

(** ** Python primitives *)
Module Py.

(** [str(n)] and the [{n}] of an f-string, for an [int]. *)
Definition str_of_int (n : Z) : string :=
  NilZero.string_of_int (Z.to_int n).

Definition code (c : ascii) : Z := Z.of_N (N_of_ascii c).

(** [\d] on ASCII: '0' to '9'.  On a string of ASCII characters this is
    the class of [re]; beyond ASCII, [re] and [int] also take the other
    decimal digits of Unicode, which the bytes of the model do not show.
    The properties that depend on the difference are stated for strings
    that satisfy [isascii]. *)
Definition is_digit (c : ascii) : bool :=
  (48 <=? code c) && (code c <=? 57).

Definition digit_value (c : ascii) : Z := code c - 48.

(** [int(s)] for a string of decimal digits, of at most
    [int_max_str_digits] characters: beyond that length [int] raises
    [ValueError], where the interpreter has that limit.  The properties
    that depend on the difference bound the length of the amount. *)
Fixpoint int_of_digits_from (acc : Z) (s : string) : Z :=
  match s with
  | EmptyString => acc
  | String c s' => int_of_digits_from (10 * acc + digit_value c) s'
  end.

Definition int_of_digits (s : string) : Z := int_of_digits_from 0 s.

(** The default of [sys.get_int_max_str_digits()]. *)
Definition int_max_str_digits : nat := 4300.

(** [s.isascii()] *)
Fixpoint isascii (s : string) : bool :=
  match s with
  | EmptyString => true
  | String c s' => (code c <? 128) && isascii s'
  end.

(** The longest prefix whose characters satisfy [p], and the rest. *)
Fixpoint span (p : ascii -> bool) (s : string) : string * string :=
  match s with
  | EmptyString => (EmptyString, EmptyString)
  | String c s' =>
      if p c then let (a, b) := span p s' in (String c a, b)
      else (EmptyString, s)
  end.

(** [str.isspace] on ASCII: tab, line feed, vertical tab, form feed,
    carriage return, the four separators 0x1c to 0x1f and the space.
    Beyond ASCII, [str.split] and [str.strip] also cut at the other
    whitespace of Unicode; the properties that depend on the difference
    are stated for texts that satisfy [isascii]. *)
Definition isspace (c : ascii) : bool :=
  ((9 <=? code c) && (code c <=? 13))
  || ((28 <=? code c) && (code c <=? 31))
  || (code c =? 32).

Fixpoint lstrip (s : string) : string :=
  match s with
  | EmptyString => EmptyString
  | String c s' => if isspace c then lstrip s' else s
  end.

Fixpoint rstrip (s : string) : string :=
  match s with
  | EmptyString => EmptyString
  | String c s' =>
      match rstrip s' with
      | EmptyString => if isspace c then EmptyString else String c EmptyString
      | r => String c r
      end
  end.

(** [s.strip()] *)
Definition strip (s : string) : string := rstrip (lstrip s).

(** [s.split(maxsplit=1)]: leading whitespace is skipped, the first word
    runs up to the next whitespace, and what follows the whitespace after
    it, when there is anything, is the second item, kept up to the end of
    the string. *)
Definition split_maxsplit1 (s : string) : list string :=
  match lstrip s with
  | EmptyString => []
  | s1 =>
      let (word, rest) := span (fun c => negb (isspace c)) s1 in
      match lstrip rest with
      | EmptyString => [word]
      | tail => [word; tail]
      end
  end.

Definition space : ascii := " "%char.

(** [' ' in s] *)
Fixpoint contains_space (s : string) : bool :=
  match s with
  | EmptyString => false
  | String c s' => Ascii.eqb c space || contains_space s'
  end.

(** [s.split(' ', 1)] for a string that contains a space: what is before
    the first space, and what is after it. *)
Definition split_space1 (s : string) : string * string :=
  let (a, b) := span (fun c => negb (Ascii.eqb c space)) s in
  (a, match b with EmptyString => EmptyString | String _ b' => b' end).

(** [bool(s)] for a string. *)
Definition truthy (s : string) : bool :=
  match s with EmptyString => false | _ => true end.

(** [html.escape(s, quote=False)] *)
Fixpoint html_escape (s : string) : string :=
  match s with
  | EmptyString => EmptyString
  | String c s' =>
      (if Ascii.eqb c "&"%char then "&amp;"
       else if Ascii.eqb c "<"%char then "&lt;"
       else if Ascii.eqb c ">"%char then "&gt;"
       else String c EmptyString) ++ html_escape s'
  end.

Definition nl : string := String (ascii_of_nat 10) EmptyString.

(** [c in s] for a character. *)
Fixpoint contains (c : ascii) (s : string) : bool :=
  match s with
  | EmptyString => false
  | String x s' => Ascii.eqb x c || contains c s'
  end.

Definition quote1 : ascii := "'"%char.
Definition quote2 : ascii := ascii_of_nat 34.
Definition backslash : ascii := ascii_of_nat 92.

(** A hexadecimal digit, in lower case. *)
Definition hex_digit (n : Z) : ascii :=
  ascii_of_N (Z.to_N (if n <? 10 then 48 + n else 87 + n)).

(** What [repr] writes for one character of a string between the quotes
    [quote]: the quote and the backslash get a backslash, tab, line feed
    and carriage return their letter, the other control characters of
    ASCII their code in hexadecimal, and any other character stands for
    itself.  (Beyond ASCII, [repr] also escapes the characters that are
    not printable; the bytes of a character beyond ASCII stand for
    themselves here.) *)
Definition repr_char (quote c : ascii) : string :=
  if Ascii.eqb c quote || Ascii.eqb c backslash
  then String backslash (String c EmptyString)
  else if code c =? 9 then String backslash "t"
  else if code c =? 10 then String backslash "n"
  else if code c =? 13 then String backslash "r"
  else if (code c <? 32) || (code c =? 127)
  then String backslash
         (String "x"%char (String (hex_digit (code c / 16))
                        (String (hex_digit (code c mod 16)) EmptyString)))
  else String c EmptyString.

Fixpoint repr_chars (quote : ascii) (s : string) : string :=
  match s with
  | EmptyString => EmptyString
  | String c s' => repr_char quote c ++ repr_chars quote s'
  end.

(** [repr(s)] for a string: between single quotes, or between double
    quotes when the string has a single quote and no double quote. *)
Definition repr (s : string) : string :=
  let quote :=
    if contains quote1 s && negb (contains quote2 s) then quote2 else quote1 in
  String quote (repr_chars quote s ++ String quote EmptyString).

(** [repr] of a list of strings, as an f-string shows it. *)
Fixpoint repr_items (l : list string) : string :=
  match l with
  | [] => ""
  | [x] => repr x
  | x :: l' => repr x ++ ", " ++ repr_items l'
  end.

Definition repr_list (l : list string) : string :=
  "[" ++ repr_items l ++ "]".

(** [l.name] for a list [l] and a name that is not a method of lists:
    there is no such attribute. *)
Definition list_getattr (l : list string) (name : string) : outcome string :=
  Raise (Exn AttributeError
             ("'list' object has no attribute '" ++ name ++ "'")).

(** ** [datetime] and [timedelta]

    A naive [datetime] is the number of microseconds since
    0001-01-01T00:00:00, a [timedelta] a number of microseconds. *)
Definition datetime : Type := Z.
Definition timedelta_t : Type := Z.

Definition us_per_second : Z := 1000000.
Definition us_per_day : Z := 86400 * us_per_second.

(** [datetime.max] is 9999-12-31T23:59:59.999999, the last microsecond of
    day 3652059. *)
Definition datetime_max : Z := 3652059 * us_per_day - 1.

(** [timedelta(days=, seconds=, minutes=, hours=, weeks=)]: the arguments
    are summed, and a result of more than 999999999 days in magnitude is
    an [OverflowError]: the one of the conversion to a C integer when the
    number of days does not fit one, the one of the range of [timedelta]
    otherwise. *)
Definition timedelta (days seconds minutes hours weeks : Z)
  : outcome timedelta_t :=
  let total_seconds :=
    seconds + 60 * minutes + 3600 * hours + 86400 * (days + 7 * weeks) in
  let total_days := total_seconds / 86400 in
  if Z.abs total_days >? 999999999
  then Raise (Exn OverflowError
                  (if (total_days >? 2147483647) || (total_days <? -2147483648)
                   then "Python int too large to convert to C int"
                   else "days=" ++ str_of_int total_days
                        ++ "; must have magnitude <= 999999999"))
  else Ret (total_seconds * us_per_second).

(** [now + delta] *)
Definition datetime_add (now : datetime) (delta : timedelta_t)
  : outcome datetime :=
  if (now + delta <? 0) || (datetime_max <? now + delta)
  then Raise (Exn OverflowError "date value out of range")
  else Ret (now + delta).

(** [str(n)] padded with zeros on the left to [width] characters. *)
Definition zero_pad (width : nat) (n : Z) : string :=
  let digits := str_of_int n in
  (fix pad (k : nat) : string :=
     match k with
     | O => digits
     | S k' => "0" ++ pad k'
     end) (width - String.length digits)%nat.

(** [str(d)] for a [datetime]: the calendar date of the proleptic
    Gregorian calendar and the time of day, with the microseconds only
    when there are some. *)
Definition str_of_datetime (d : datetime) : string :=
  let days := d / us_per_day in
  let us_of_day := d mod us_per_day in
  let z := days + 306 in
  let era := z / 146097 in
  let doe := z mod 146097 in
  let yoe := (doe - doe / 1460 + doe / 36524 - doe / 146096) / 365 in
  let doy := doe - (365 * yoe + yoe / 4 - yoe / 100) in
  let mp := (5 * doy + 2) / 153 in
  let day := doy - (153 * mp + 2) / 5 + 1 in
  let month := if mp <? 10 then mp + 3 else mp - 9 in
  let year := yoe + era * 400 + (if month <=? 2 then 1 else 0) in
  let secs := us_of_day / us_per_second in
  let us := us_of_day mod us_per_second in
  zero_pad 4 year ++ "-" ++ zero_pad 2 month ++ "-" ++ zero_pad 2 day
  ++ " " ++ zero_pad 2 (secs / 3600) ++ ":" ++ zero_pad 2 (secs / 60 mod 60)
  ++ ":" ++ zero_pad 2 (secs mod 60)
  ++ (if us =? 0 then "" else "." ++ zero_pad 6 us).

End Py.

(** ** The duration parser *)

(** [re.match(r'(\d+)([smhd])', time_str)] and [match.groups()].  [re.match]
    anchors the pattern at the start of the string only.  [\d+] is greedy
    and takes the whole leading run of digits; giving digits back cannot
    help, because the character after a shorter run is a digit and the unit
    class has none.  So the pattern matches exactly when the leading run of
    digits is not empty and the character after it is one of s, m, h, d
    (lemma [re_match_time_backtracking] below compares this with the
    matcher that backtracks). *)
Definition re_match_time (time_str : string) : option (string * ascii) :=
  let (amount, rest) := Py.span Py.is_digit time_str in
  match amount, rest with
  | EmptyString, _ => None
  | _, EmptyString => None
  | _, String unit _ =>
      if existsb (Ascii.eqb unit) ["s"; "m"; "h"; "d"]%char
      then Some (amount, unit)
      else None
  end.

(** [parse_time], with the value of [datetime.utcnow()] as an argument.  The
    pair [(None, None)] is [None], the pair [(until_date, duration_str)] is
    [Some (until_date, duration_str)]. *)
Definition parse_time (now : Py.datetime) (time_str : string)
  : outcome (option (Py.datetime * string)) :=
  match re_match_time time_str with
  | None => Ret None
  | Some (amount, unit) =>
      let amount := Py.int_of_digits amount in
      let result (delta : outcome Py.timedelta_t) (suffix : string) :=
        delta <- delta ;;
        until_date <- Py.datetime_add now delta ;;
        Ret (Some (until_date, Py.str_of_int amount ++ suffix)) in
      match unit with
      | "s"%char => result (Py.timedelta 0 amount 0 0 0) " sec."
      | "m"%char => result (Py.timedelta 0 0 amount 0 0) " min."
      | "h"%char => result (Py.timedelta 0 0 0 amount 0) " h."
      | "d"%char => result (Py.timedelta amount 0 0 0 0) " d."
      | "w"%char => result (Py.timedelta 0 0 0 0 amount) " w."
      | "M"%char => result (Py.timedelta (30 * amount) 0 0 0 0) " M."
      | "y"%char => result (Py.timedelta (365 * amount) 0 0 0 0) " y."
      | _ => Ret None
      end
  end.

(** ** The remote layer *)

Inductive ChatMemberStatus : Type :=
| CREATOR | ADMINISTRATOR | MEMBER | RESTRICTED | LEFT | KICKED.

(** [status in [ChatMemberStatus.ADMINISTRATOR, ChatMemberStatus.CREATOR]] *)
Definition in_admin_statuses (status : ChatMemberStatus) : bool :=
  match status with
  | ADMINISTRATOR | CREATOR => true
  | _ => false
  end.

(** [types.ChatPermissions]: the fields the module sets; a field that is not
    given is [None]. *)
Record ChatPermissions : Type := {
  can_send_messages : option bool;
  can_send_other_messages : option bool
}.

Record User : Type := {
  id : Z;
  first_name : string;
  last_name : option string
}.

(** [user.full_name] *)
Definition full_name (u : User) : string :=
  match last_name u with
  | Some l => first_name u ++ " " ++ l
  | None => first_name u
  end.

Definition dquote : string := String (ascii_of_nat 34) EmptyString.

(** [user.mention_html(name)]: a link to [tg://user?id=<id>] around the
    escaped name. *)
Definition mention_html (u : User) (name : string) : string :=
  "<a href=" ++ dquote ++ "tg://user?id=" ++ Py.str_of_int (id u) ++ dquote
  ++ ">" ++ Py.html_escape name ++ "</a>".

(** An incoming message.  The handlers run behind the [Command] filter on
    text commands, so [text] is a string. *)
#[warnings="-register-all"]
Inductive Message : Type :=
  mkMessage (message_id chat_id : Z) (from_user : User) (text : string)
            (reply_to_message : option Message).

Definition message_id (m : Message) : Z :=
  let (i, _, _, _, _) := m in i.
Definition chat_id (m : Message) : Z :=
  let (_, c, _, _, _) := m in c.
Definition from_user (m : Message) : User :=
  let (_, _, u, _, _) := m in u.
Definition text (m : Message) : string :=
  let (_, _, _, t, _) := m in t.
Definition reply_to_message (m : Message) : option Message :=
  let (_, _, _, _, r) := m in r.

(** The calls to the remote service: the methods of the [bot] client and
    the two sending methods of a message ([message.reply] quotes the
    message, [message.answer] does not).  The index is the type of what the
    call returns.  The bot's default parse mode is HTML, so the
    [parse_mode='HTML'] that some calls pass changes nothing and is not
    recorded. *)
Inductive call : Type -> Type :=
| get_chat_member (chat user : Z) : call ChatMemberStatus
| ban_chat_member (chat user : Z) : call unit
| unban_chat_member (chat user : Z) (only_if_banned : bool) : call unit
| restrict_chat_member (chat user : Z) (until_date : option Py.datetime)
                       (permissions : ChatPermissions) : call unit
| send_message (chat : Z) (body : string) : call unit
| message_reply (chat msg : Z) (body : string) : call unit
| message_answer (chat : Z) (body : string) : call unit
| delete_webhook (drop_pending_updates : bool) : call unit.

Inductive log_level : Type := INFO | ERROR.

(** What an invocation does, in order: the calls it makes, each with what
    the remote service answered, the records it hands to [logging], the
    lines it prints and the pauses of [asyncio.sleep]. *)
Inductive event : Type :=
| Called {A : Type} (c : call A) (answered : outcome A)
| Logged (level : log_level) (line : string)
| Printed (line : string)
| Slept (delay : Z).

(** The world a handler runs in: the configuration, the identity of the
    bot, the clock, and the remote service, which answers a call, knowing
    what happened before it, with a value or with an exception. *)
Record World : Type := {
  CHAT_LINK : string;
  bot_id : Z;
  utcnow : list event -> Py.datetime;
  remote : forall A : Type, list event -> call A -> outcome A
}.
Arguments remote w {A} history c.

(** ** The handler monad

    A coroutine of the module reads the world, extends the trace of events
    and ends with a value or with an exception. *)
Definition M (A : Type) : Type :=
  World -> list event -> outcome A * list event.

Definition mret {A} (a : A) : M A := fun _ tr => (Ret a, tr).

Definition mbind {A B} (m : M A) (k : A -> M B) : M B :=
  fun w tr =>
    match m w tr with
    | (Ret a, tr') => k a w tr'
    | (Raise e, tr') => (Raise e, tr')
    end.

#[global] Instance M_Monad : Monad M :=
  {| ret := @mret; bind := @mbind |}.

(** [await] of a remote call *)
Definition await {A} (c : call A) : M A :=
  fun w tr =>
    let answered := remote w tr c in
    (answered, (tr ++ [Called c answered])%list).

Definition raise {A} (e : exn) : M A := fun _ tr => (Raise e, tr).

(** An [outcome] computed without the remote. *)
Definition lift {A} (o : outcome A) : M A := fun _ tr => (o, tr).

Definition ask {A} (f : World -> A) : M A := fun w tr => (Ret (f w), tr).

Definition now : M Py.datetime := fun w tr => (Ret (utcnow w tr), tr).

Definition logging_info (line : string) : M unit :=
  fun _ tr => (Ret tt, (tr ++ [Logged INFO line])%list).

Definition logging_error (line : string) : M unit :=
  fun _ tr => (Ret tt, (tr ++ [Logged ERROR line])%list).

Definition print (line : string) : M unit :=
  fun _ tr => (Ret tt, (tr ++ [Printed line])%list).

(** [await asyncio.sleep(delay)].  Without cancellation, which is not part
    of the model, the pause ends normally. *)
Definition asyncio_sleep (delay : Z) : M unit :=
  fun _ tr => (Ret tt, (tr ++ [Slept delay])%list).

(** [try: body / except Exception as e: handler e] *)
Definition try_except {A} (body : M A) (handler : exn -> M A) : M A :=
  fun w tr =>
    match body w tr with
    | (Ret a, tr') => (Ret a, tr')
    | (Raise e, tr') => handler e w tr'
    end.

(** [with suppress(TelegramBadRequest): body] *)
Definition suppress_TelegramBadRequest (body : M unit) : M unit :=
  try_except body
    (fun e =>
       if exn_class_eqb (exn_kind e) TelegramBadRequest
       then ret tt
       else raise e).

(** Running a coroutine from an empty trace. *)
Definition run {A} (m : M A) (w : World) : outcome A * list event := m w [].

(** ** Helper functions *)

(** [range(retries)] *)
Definition range (n : Z) : list Z := map Z.of_nat (seq 0 (Z.to_nat n)).

(** [aiohttp.ClientConnectorError], as the first [except] clause of
    [delete_webhook_with_retry] evaluates it when an exception reaches it.
    The module binds the name [aiohttp] twice: [import aiohttp] binds it to
    the HTTP library, and [from aiogram.client.session import aiohttp],
    three lines below, binds it again, to the module of aiogram's session.
    That module has no attribute [ClientConnectorError], so the evaluation
    raises [AttributeError]. *)
Definition aiohttp_ClientConnectorError : outcome exn_class :=
  Raise (Exn AttributeError
             "module 'aiogram.client.session.aiohttp' has no attribute 'ClientConnectorError'").

(** The [for] loop of [delete_webhook_with_retry] over the attempts that
    remain, and the statement after it.  The [try] gives [true] when the
    function returns from inside the loop.  An exception of the body goes
    through the [except] clauses in order, and the class of the first
    clause is evaluated first. *)
Fixpoint delete_webhook_loop (attempts : list Z) (retries delay : Z) : M unit :=
  match attempts with
  | [] => print "Failed to delete webhook after several attempts."
  | attempt :: attempts' =>
      returned <-
        try_except
          (await (delete_webhook true) ;;
           print "Webhook deleted successfully." ;;
           ret true)
          (fun e =>
             connector_error <- lift aiohttp_ClientConnectorError ;;
             (if exn_class_eqb (exn_kind e) connector_error
              then print ("Network error on attempt " ++ Py.str_of_int (attempt + 1)
                          ++ "/" ++ Py.str_of_int retries ++ ": " ++ exn_str e)
              else print ("Unexpected error on attempt " ++ Py.str_of_int (attempt + 1)
                          ++ "/" ++ Py.str_of_int retries ++ ": " ++ exn_str e)) ;;
             ret false) ;;
      if (returned : bool) then ret tt
      else asyncio_sleep delay ;;
           delete_webhook_loop attempts' retries delay
  end.

Definition delete_webhook_with_retry (retries delay : Z) : M unit :=
  delete_webhook_loop (range retries) retries delay.

Definition is_bot_admin (chat : Z) : M bool :=
  me <- ask bot_id ;;
  bot_status <- await (get_chat_member chat me) ;;
  ret (in_admin_statuses bot_status).

Definition is_user_admin (chat user : Z) : M bool :=
  user_status <- await (get_chat_member chat user) ;;
  ret (in_admin_statuses user_status).

Definition reply (message : Message) (body : string) : M unit :=
  await (message_reply (chat_id message) (message_id message) body).

Definition answer (message : Message) (body : string) : M unit :=
  await (message_answer (chat_id message) body).

Definition bot_not_admin_text : string :=
  "<b>❌ Бот не является администратором чата!</b>".
Definition user_not_admin_text : string :=
  "<b>❌ Вы не администратор!</b>".

Definition check_admin (message : Message) : M bool :=
  bot_ok <- is_bot_admin (chat_id message) ;;
  if negb bot_ok then
    reply message bot_not_admin_text ;;
    ret false
  else
    user_ok <- is_user_admin (chat_id message) (id (from_user message)) ;;
    if negb user_ok then
      reply message user_not_admin_text ;;
      ret false
    else ret true.

Definition error_text_markup (error_text : string) : string :=
  "<b>❌ " ++ error_text ++ "</b>".

Definition send_error (message : Message) (error_text : string) : M unit :=
  try_except
    (reply message (error_text_markup error_text))
    (fun e => logging_error ("Failed to send error message: " ++ exn_str e)).

Definition send_invite (user_id : Z) : M unit :=
  try_except
    (link <- ask CHAT_LINK ;;
     await (send_message user_id link) ;;
     logging_info ("Invite sent to user " ++ Py.str_of_int user_id))
    (fun e => logging_error ("Failed to send invite: " ++ exn_str e)).

(** ** Commands *)

Definition need_reply_text : string :=
  "Вам нужно сделать это в ответ на сообщение пользователя!".
Definition cannot_ban_admin_text : string :=
  "Нельзя удалить администратора!".
Definition cannot_mute_admin_text : string :=
  "Нельзя заглушить администратора!".
Definition unban_done_text : string := "✅ Блокировка была снята".

(** The confirmation of a ban. *)
Definition ban_message (message reply_message : Message) : string :=
  "🚫 <a href='tg://user?id=" ++ Py.str_of_int (id (from_user reply_message))
  ++ "'>" ++ full_name (from_user reply_message) ++ "</a> заблокирован навсегда"
  ++ Py.nl
  ++ "👤 Модератор: <a href='tg://user?id=" ++ Py.str_of_int (id (from_user message))
  ++ "'>" ++ first_name (from_user message) ++ "</a>".

(** [/ban] *)
Definition func_kick (message : Message) : M unit :=
  logging_info "Ban command received" ;;
  allowed <- check_admin message ;;
  if negb allowed then logging_info "User is not admin"
  else
    match reply_to_message message with
    | None => send_error message need_reply_text
    | Some reply_message =>
        let user_to_kick_id := id (from_user reply_message) in
        target_is_admin <- is_user_admin (chat_id message) user_to_kick_id ;;
        if (target_is_admin : bool) then send_error message cannot_ban_admin_text
        else
          try_except
            (await (ban_chat_member (chat_id message) user_to_kick_id) ;;
             logging_info ("User " ++ Py.str_of_int (id (from_user reply_message))
                           ++ " banned") ;;
             answer message (ban_message message reply_message) ;;
             logging_info "Ban message sent successfully")
            (fun e =>
               if exn_class_eqb (exn_kind e) TelegramBadRequest
               then
                 send_error message ("Не удалось удалить пользователя: " ++ exn_str e) ;;
                 logging_error ("Failed to kick user: " ++ exn_str e)
               else
                 send_error message ("Произошла ошибка: " ++ exn_str e) ;;
                 logging_error ("Unexpected error: " ++ exn_str e))
    end.

(** [/unban] *)
Definition func_unban (message : Message) : M unit :=
  allowed <- check_admin message ;;
  if negb allowed then ret tt
  else
    match reply_to_message message with
    | None => send_error message need_reply_text
    | Some reply_message =>
        try_except
          (await (unban_chat_member (chat_id message)
                                    (id (from_user reply_message)) true) ;;
           answer message unban_done_text ;;
           chat_link <- ask CHAT_LINK ;;
           await (send_message (id (from_user reply_message)) chat_link))
          (fun e => send_error message ("Произошла ошибка: " ++ exn_str e))
    end.

(** The confirmation of a mute. *)
Definition mute_message (reply_message : Message) (user_to_mute_id : Z)
    (duration_str : string) (reason : option string) : string :=
  let mute_message :=
    "🔇 <a href='tg://user?id=" ++ Py.str_of_int user_to_mute_id ++ "'>"
    ++ full_name (from_user reply_message) ++ "</a> был заглушен" in
  let mute_message :=
    if Py.truthy duration_str then mute_message ++ " на " ++ duration_str
    else mute_message in
  match reason with
  | Some r =>
      if Py.truthy r then mute_message ++ Py.nl ++ "Причина: " ++ r
      else mute_message ++ "!"
  | None => mute_message ++ "!"
  end.

(** The execution stage of [/mute]: the [with suppress(TelegramBadRequest)]
    block at the end of [func_mute]. *)
Definition mute_execute (message reply_message : Message) (user_to_mute_id : Z)
    (until_date : Py.datetime) (duration_str : string) (reason : option string)
  : M unit :=
  suppress_TelegramBadRequest
    (await (restrict_chat_member (chat_id message) user_to_mute_id
              (Some until_date)
              {| can_send_messages := Some false;
                 can_send_other_messages := None |}) ;;
     answer message (mute_message reply_message user_to_mute_id duration_str reason)).

Definition str_of_option {A} (show : A -> string) (o : option A) : string :=
  match o with
  | Some a => show a
  | None => "None"
  end.

(** [func_mute] from the split of the arguments on: the duration and the
    reason, the parser, and the execution stage. *)
Definition mute_parse_and_execute (message reply_message : Message)
    (user_to_mute_id : Z) (args : string) : M unit :=
  let '(time_str, reason) :=
    if Py.contains_space args
    then let (t, r) := Py.split_space1 args in (t, Some r)
    else (args, None) in
  utc <- now ;;
  parsed <- lift (parse_time utc time_str) ;;
  print ("Parsed time string: " ++ time_str) ;;
  print ("Parsed until_date: " ++ str_of_option Py.str_of_datetime (option_map fst parsed)) ;;
  print ("Parsed duration_str: " ++ str_of_option (fun s => s) (option_map snd parsed)) ;;
  print ("Parsed reason: " ++ str_of_option (fun s => s) reason) ;;
  match parsed with
  | None =>
      send_error message
        "Не удалось разобрать время. Пожалуйста, используйте правильный формат времени."
  | Some (until_date, duration_str) =>
      mute_execute message reply_message user_to_mute_id until_date duration_str reason
  end.

(** [/mute].  [command_text] is the list that [str.split] returns, and the
    function reads its attribute [args] once the target is known not to be
    an administrator. *)
Definition func_mute (message : Message) : M unit :=
  logging_info "Mute command received" ;;
  allowed <- check_admin message ;;
  if negb allowed then logging_info "User is not admin"
  else
    let command_text := Py.split_maxsplit1 (text message) in
    logging_info ("Command text: " ++ Py.repr_list command_text) ;;
    if Z.of_nat (List.length command_text) <? 2
    then send_error message "Вам нужно указать аргументы команды!"
    else
      let args := Py.strip (nth 1 command_text "") in
      logging_info ("Arguments: '" ++ args ++ "'") ;;
      if negb (Py.truthy args)
      then send_error message "Не указаны аргументы для команды!"
      else
        match reply_to_message message with
        | None =>
            send_error message
              "Вам нужно ответить на сообщение пользователя, которого вы хотите заглушить!"
        | Some reply_message =>
            let user_to_mute_id := id (from_user reply_message) in
            target_is_admin <- is_user_admin (chat_id message) user_to_mute_id ;;
            if (target_is_admin : bool)
            then send_error message cannot_mute_admin_text
            else
              args_attr <- lift (Py.list_getattr command_text "args") ;;
              let args := Py.strip args_attr in
              mute_parse_and_execute message reply_message user_to_mute_id args
        end.

(** [/unmute] *)
Definition func_unmute (message : Message) : M unit :=
  allowed <- check_admin message ;;
  if negb allowed then ret tt
  else
    match reply_to_message message with
    | None => send_error message need_reply_text
    | Some reply_message =>
        let mention :=
          mention_html (from_user reply_message)
                       (first_name (from_user reply_message)) in
        await (restrict_chat_member (chat_id message)
                 (id (from_user reply_message)) None
                 {| can_send_messages := Some true;
                    can_send_other_messages := Some true |}) ;;
        answer message
          ("🎉 Все ограничения с пользователя <b>" ++ mention ++ "</b> были сняты!")
    end.

(** * Vocabulary of the properties *)

(** ** Tokens *)

(** Every character of [s] satisfies [p]. *)
Fixpoint forall_chars (p : ascii -> bool) (s : string) : bool :=
  match s with
  | EmptyString => true
  | String c s' => p c && forall_chars p s'
  end.

(** The units of the table of the specification, and the units that the
    pattern of [parse_time] accepts. *)
Definition table_units : list ascii := ["s"; "m"; "h"; "d"; "w"; "M"; "y"]%char.
Definition pattern_units : list ascii := ["s"; "m"; "h"; "d"]%char.

(** The number of seconds of a unit, and the suffix of its label. *)
Definition unit_seconds (unit : ascii) : Z :=
  match unit with
  | "s"%char => 1
  | "m"%char => 60
  | "h"%char => 3600
  | "d"%char => 86400
  | "w"%char => 7 * 86400
  | "M"%char => 30 * 86400
  | "y"%char => 365 * 86400
  | _ => 0
  end.

Definition unit_suffix (unit : ascii) : string :=
  match unit with
  | "s"%char => " sec."
  | "m"%char => " min."
  | "h"%char => " h."
  | "d"%char => " d."
  | "w"%char => " w."
  | "M"%char => " M."
  | "y"%char => " y."
  | _ => ""
  end.

(** A token that begins with a run of digits, not empty, followed by one
    of [units]; [rest] is what follows the unit. *)
Definition amount_unit_shape (units : list ascii) (token amount : string)
           (unit : ascii) (rest : string) : Prop :=
  token = amount ++ String unit rest
  /\ amount <> EmptyString
  /\ forall_chars Py.is_digit amount = true
  /\ In unit units.

Definition begins_with_amount_and_unit (units : list ascii) (token : string) : Prop :=
  exists amount unit rest, amount_unit_shape units token amount unit rest.

(** The value of a decimal numeral read from its first digit on. *)
Fixpoint uint_value_from (acc : Z) (d : Decimal.uint) : Z :=
  match d with
  | Decimal.Nil => acc
  | Decimal.D0 d => uint_value_from (10 * acc + 0) d
  | Decimal.D1 d => uint_value_from (10 * acc + 1) d
  | Decimal.D2 d => uint_value_from (10 * acc + 2) d
  | Decimal.D3 d => uint_value_from (10 * acc + 3) d
  | Decimal.D4 d => uint_value_from (10 * acc + 4) d
  | Decimal.D5 d => uint_value_from (10 * acc + 5) d
  | Decimal.D6 d => uint_value_from (10 * acc + 6) d
  | Decimal.D7 d => uint_value_from (10 * acc + 7) d
  | Decimal.D8 d => uint_value_from (10 * acc + 8) d
  | Decimal.D9 d => uint_value_from (10 * acc + 9) d
  end.

(** The pattern [(\d+)([smhd])] read as the backtracking matcher reads it:
    [\d+] is tried on every prefix of digits of the string, longest first,
    and the first one that a unit follows gives the groups. *)
Fixpoint digit_prefixes (s : string) : list (string * string) :=
  match s with
  | EmptyString => []
  | String c s' =>
      if Py.is_digit c
      then (map (fun p => (String c (fst p), snd p)) (digit_prefixes s')
            ++ [(String c EmptyString, s')])%list
      else []
  end.

Definition unit_follows (p : string * string) : option (string * ascii) :=
  match snd p with
  | EmptyString => None
  | String unit _ =>
      if existsb (Ascii.eqb unit) pattern_units then Some (fst p, unit) else None
  end.

Fixpoint first_match (l : list (string * string)) : option (string * ascii) :=
  match l with
  | [] => None
  | p :: l' =>
      match unit_follows p with
      | Some groups => Some groups
      | None => first_match l'
      end
  end.

Definition re_match_backtracking (time_str : string) : option (string * ascii) :=
  first_match (digit_prefixes time_str).

(** ** Traces *)

Inductive call_name : Type :=
| GetChatMember | BanChatMember | UnbanChatMember | RestrictChatMember
| SendMessage | MessageReply | MessageAnswer | DeleteWebhook.

Definition name_of {A} (c : call A) : call_name :=
  match c with
  | get_chat_member _ _ => GetChatMember
  | ban_chat_member _ _ => BanChatMember
  | unban_chat_member _ _ _ => UnbanChatMember
  | restrict_chat_member _ _ _ _ => RestrictChatMember
  | send_message _ _ => SendMessage
  | message_reply _ _ _ => MessageReply
  | message_answer _ _ => MessageAnswer
  | delete_webhook _ => DeleteWebhook
  end.

Definition call_name_eqb (a b : call_name) : bool :=
  match a, b with
  | GetChatMember, GetChatMember
  | BanChatMember, BanChatMember
  | UnbanChatMember, UnbanChatMember
  | RestrictChatMember, RestrictChatMember
  | SendMessage, SendMessage
  | MessageReply, MessageReply
  | MessageAnswer, MessageAnswer
  | DeleteWebhook, DeleteWebhook => true
  | _, _ => false
  end.

(** The exception of a result, when it is one. *)
Definition failure {A} (o : outcome A) : option exn :=
  match o with
  | Ret _ => None
  | Raise e => Some e
  end.

(** The event is a call of the remote operation [name]. *)
Definition calls (name : call_name) (ev : event) : bool :=
  match ev with
  | Called c _ => call_name_eqb (name_of c) name
  | _ => false
  end.

(** The event is a call of [name] that the remote service answered with an
    exception, and which. *)
Definition failed_call (name : call_name) (ev : event) : option exn :=
  match ev with
  | Called c answered =>
      if call_name_eqb (name_of c) name then failure answered else None
  | _ => None
  end.

(** The event is a call of [name] that the remote service carried out. *)
Definition succeeded_call (name : call_name) (ev : event) : bool :=
  match ev with
  | Called c (Ret _) => call_name_eqb (name_of c) name
  | _ => false
  end.

(** The number of calls of [name] in a trace. *)
Definition count_calls (name : call_name) (tr : list event) : nat :=
  List.length (filter (calls name) tr).

(** The three mutations of the membership state. *)
Definition mutation (ev : event) : bool :=
  calls BanChatMember ev || calls UnbanChatMember ev || calls RestrictChatMember ev.

(** What the users of the chat get to see: replies, answers and private
    messages. *)
Definition user_facing (ev : event) : bool :=
  calls MessageReply ev || calls MessageAnswer ev || calls SendMessage ev.

(** The text of a message that the event sends, when it sends one. *)
Definition sent_text (ev : event) : option string :=
  match ev with
  | Called (message_reply _ _ body) _ => Some body
  | Called (message_answer _ body) _ => Some body
  | Called (send_message _ body) _ => Some body
  | _ => None
  end.

(** The event sends the text [body]. *)
Definition sends (body : string) (ev : event) : bool :=
  match sent_text ev with
  | Some b => String.eqb b body
  | None => false
  end.

(** ** Worlds *)

(** The remote service reports the role [status] for [user] in [chat],
    whenever it is asked. *)
Definition has_role (w : World) (chat user : Z) (status : ChatMemberStatus) : Prop :=
  forall tr, remote w tr (get_chat_member chat user) = Ret status.

(** A world given by a table of roles and by the calls that fail: the
    remote service answers a call that [fails] names with that exception,
    a role lookup with the role of the table, and carries out every other
    call. *)
Definition carried_out (roles : Z -> ChatMemberStatus) {A} (c : call A) : A :=
  match c with
  | get_chat_member _ user => roles user
  | _ => tt
  end.

Definition world_of (roles : Z -> ChatMemberStatus)
    (fails : forall A, list event -> call A -> option exn) : World :=
  {| CHAT_LINK := "https://t.me/+invite";
     bot_id := 1;
     utcnow := fun _ => 0;
     remote := fun A tr c =>
       match fails A tr c with
       | Some e => Raise e
       | None => Ret (carried_out roles c)
       end |}.

Definition nothing_fails : forall A, list event -> call A -> option exn :=
  fun _ _ _ => None.

(** The bot is user 1, the moderator user 7 and the target user 9 of chat
    -100; [admins] lists the administrators. *)
Definition roles_of (admins : list Z) (user : Z) : ChatMemberStatus :=
  if existsb (Z.eqb user) admins then ADMINISTRATOR else MEMBER.

Definition moderator : User :=
  {| id := 7; first_name := "Mod"; last_name := None |}.
Definition target : User :=
  {| id := 9; first_name := "Tar"; last_name := Some "Get" |}.

Definition replied : Message := mkMessage 40 (-100) target "hello" None.

(** The command [body], sent by the moderator in reply to the target. *)
Definition command (body : string) : Message :=
  mkMessage 41 (-100) moderator body (Some replied).

Definition network_error : exn := Exn OtherException "network is unreachable".
Definition bad_request : exn := Exn TelegramBadRequest "Bad Request: user not found".
Definition forbidden : exn :=
  Exn OtherException "Forbidden: bot can't initiate conversation with a user".

(** ** Properties of traces *)

(** [P] holds of every event of the trace, together with the events that
    come after it. *)
Fixpoint each_event (P : event -> list event -> Prop) (tr : list event) : Prop :=
  match tr with
  | [] => True
  | ev :: after => P ev after /\ each_event P after
  end.

(** The last event of a trace. *)
Definition last_event (tr : list event) : option event :=
  List.last (map Some tr) None.


(** Every call of [name] fails with [e]. *)
Definition failing (name : call_name) (e : exn)
  : forall A, list event -> call A -> option exn :=
  fun _ _ c => if call_name_eqb (name_of c) name then Some e else None.




(** The event is a reply to the command, marked as a failure, that ends
    with the text of the exception [e]. *)
Definition failure_reply (message : Message) (e : exn) (ev : event) : Prop :=
  exists detail delivered,
    ev = Called (message_reply (chat_id message) (message_id message)
                   (error_text_markup (detail ++ exn_str e))) delivered.



(** The log record of a reply of [send_error] that could not be sent. *)
Definition send_error_log {A} (delivered : outcome A) : list event :=
  match delivered with
  | Ret _ => []
  | Raise e => [Logged ERROR ("Failed to send error message: " ++ exn_str e)]
  end.

(** ** The bootstrap retrier *)

Definition webhook_deleted : event := Printed "Webhook deleted successfully.".
Definition webhook_given_up : event :=
  Printed "Failed to delete webhook after several attempts.".

(** The number of attempts of a run of the retrier. *)
Definition attempts (tr : list event) : nat := count_calls DeleteWebhook tr.

(** The exception that leaves the retrier when an attempt has failed: the
    one that the class of its first [except] clause raises. *)
Definition no_ClientConnectorError : exn :=
  Exn AttributeError
      "module 'aiogram.client.session.aiohttp' has no attribute 'ClientConnectorError'".

(** * The other commands and the entry point *)

(** [/start], in a private chat. *)
Definition start (message : Message) : M unit :=
  reply message
    "Этот бот создан для поддержания дружественной атмосферы в чате ☺️".

Definition help_text : string :=
  "
    <b>Available Commands:</b>
<b>/start</b> - Starts the bot and sends a welcome message.
<b>/help</b> - Sends a list of available commands and their descriptions.
<b>/info</b> - Sends information about the bot.

<b>Admin Commands:</b>
<b>/mute &lt;time&gt;</b> - Mutes a user for the specified time. Time can be in hours (h), days (d), or weeks (w).
<b>/unmute</b> - Removes all restrictions from the user, allowing them to speak again.
<b>/ban &lt;time&gt;</b> - Bans a user for the specified time. Time can be in hours (h), days (d), or weeks (w).
<b>/unban</b> - Removes the ban from the user.
    ".

(** [/help] *)
Definition help_message (message : Message) : M unit :=
  reply message help_text.

Definition info_text : string := "This bot is created by @morry_dev.".
Definition info_sent_text : string :=
  "Information sent to your private messages.".
Definition info_failed_text : string :=
  "Failed to send information to your private messages.".

(** [/info]: the information goes to the private chat of the sender, and
    the group is told whether it went. *)
Definition info (message : Message) : M unit :=
  let user_id := id (from_user message) in
  try_except
    (await (send_message user_id info_text) ;;
     reply message info_sent_text)
    (fun e =>
       logging_error ("Failed to send message: " ++ exn_str e) ;;
       reply message info_failed_text).

(** Any other message of a private chat. *)
Definition private (message : Message) : M unit :=
  reply message "😔 <b>Бот работает только в группах</b>".

(** [main], up to the start of the polling: the routers are registered,
    which calls nothing, the webhook is deleted with the retrier, with its
    default three attempts five seconds apart, and deleted once more.
    Polling starts when this ends normally. *)
Definition main_until_polling : M unit :=
  delete_webhook_with_retry 3 5 ;;
  await (delete_webhook true).

(** * Vocabulary of the further properties *)

(** [P] holds of every event of the trace, together with the events before
    it and the events after it; [before] is what precedes the trace. *)
Fixpoint each_split_from (P : list event -> event -> list event -> Prop)
    (before tr : list event) : Prop :=
  match tr with
  | [] => True
  | ev :: after =>
      P before ev after /\ each_split_from P (before ++ [ev])%list after
  end.

(** Among the events, the remote service answered the lookup of [user] in
    [chat] with the role of an administrator or of the owner. *)
Definition answered_admin (chat user : Z) (events : list event) : Prop :=
  exists status,
    In (Called (get_chat_member chat user) (Ret status)) events
    /\ in_admin_statuses status = true.

(** In a trace, every mutation comes after the remote service has answered
    that the bot is an administrator of the chat of the command and that
    the sender of the command is one. *)
Definition mutations_behind_gate (w : World) (message : Message)
    (tr : list event) : Prop :=
  forall before ev after,
    tr = (before ++ ev :: after)%list ->
    mutation ev = true ->
    answered_admin (chat_id message) (bot_id w) before
    /\ answered_admin (chat_id message) (id (from_user message)) before.

(** The only mutation of a trace, if there is one, is [the_call], made on
    the user that the command replies to. *)
Definition only_mutation (message : Message)
    (the_call : Z -> Z -> call unit) (tr : list event) : Prop :=
  (List.length (filter mutation tr) <= 1)%nat
  /\ forall ev,
      In ev tr -> mutation ev = true ->
      exists reply_message answered,
        reply_to_message message = Some reply_message
        /\ ev = Called (the_call (chat_id message)
                                 (id (from_user reply_message))) answered.

Definition unban_call (chat user : Z) : call unit :=
  unban_chat_member chat user true.

(** The restrict call of [/unmute]: no expiry, messages allowed again. *)
Definition unmute_call (chat user : Z) : call unit :=
  restrict_chat_member chat user None
    {| can_send_messages := Some true; can_send_other_messages := Some true |}.

(** The restrict call of [/mute]. *)
Definition mute_call (chat user : Z) (until_date : Py.datetime) : call unit :=
  restrict_chat_member chat user (Some until_date)
    {| can_send_messages := Some false; can_send_other_messages := None |}.

(** The pauses of a trace, in order. *)
Definition pauses (tr : list event) : list Z :=
  flat_map (fun ev => match ev with Slept delay => [delay] | _ => [] end) tr.

(** The four lines that [func_mute] prints after the parser. *)
Definition parse_report (time_str : string)
    (parsed : option (Py.datetime * string)) (reason : option string)
  : list event :=
  [Printed ("Parsed time string: " ++ time_str);
   Printed ("Parsed until_date: "
            ++ str_of_option Py.str_of_datetime (option_map fst parsed));
   Printed ("Parsed duration_str: "
            ++ str_of_option (fun s => s) (option_map snd parsed));
   Printed ("Parsed reason: " ++ str_of_option (fun s => s) reason)].

Definition unparseable_text : string :=
  "Не удалось разобрать время. Пожалуйста, используйте правильный формат времени.".
Definition missing_arguments_text : string :=
  "Вам нужно указать аргументы команды!".
Definition empty_arguments_text : string :=
  "Не указаны аргументы для команды!".


(** The moderator's command [body], sent without replying to anyone. *)
Definition command_alone (body : string) : Message :=
  mkMessage 41 (-100) moderator body None.

(** The lines that a trace prints. *)
Definition printed (tr : list event) : list string :=
  flat_map (fun ev => match ev with Printed line => [line] | _ => [] end) tr.

Definition no_args_attribute : exn :=
  Exn AttributeError "'list' object has no attribute 'args'".

(** The text of the failure reply of the ban handler and the line of its
    log record, which depend on the class of the exception. *)
Definition ban_failure_text (e : exn) : string :=
  if exn_class_eqb (exn_kind e) TelegramBadRequest
  then "Не удалось удалить пользователя: " ++ exn_str e
  else "Произошла ошибка: " ++ exn_str e.

Definition ban_failure_log (e : exn) : string :=
  if exn_class_eqb (exn_kind e) TelegramBadRequest
  then "Failed to kick user: " ++ exn_str e
  else "Unexpected error: " ++ exn_str e.

(** * Properties *)

(** ** Python primitives *)

Example str_of_datetime_epoch :
  Py.str_of_datetime (719162 * Py.us_per_day) = "1970-01-01 00:00:00".
Proof. reflexivity. Qed.

Example str_of_datetime_max :
  Py.str_of_datetime Py.datetime_max = "9999-12-31 23:59:59.999999".
Proof. reflexivity. Qed.

Example str_of_datetime_leap :
  Py.str_of_datetime (730179 * Py.us_per_day + 3723 * Py.us_per_second + 5)
  = "2000-03-01 01:02:03.000005".
Proof. reflexivity. Qed.

Example split_mute :
  Py.split_maxsplit1 "/mute 2h spam  " = ["/mute"; "2h spam  "].
Proof. reflexivity. Qed.

Example split_mute_bare : Py.split_maxsplit1 "/mute   " = ["/mute"].
Proof. reflexivity. Qed.

Lemma span_spec p s :
  let (a, b) := Py.span p s in
  s = a ++ b /\ forall_chars p a = true
  /\ match b with EmptyString => True | String c _ => p c = false end.
Proof.
  induction s as [|c s IH]; simpl.
  - auto.
  - destruct (p c) eqn:Hc.
    + destruct (Py.span p s) as [a b]. destruct IH as (-> & Ha & Hb).
      simpl. rewrite Hc, Ha. auto.
    + simpl. rewrite Hc. auto.
Qed.

Lemma span_app p a c rest :
  forall_chars p a = true -> p c = false ->
  Py.span p (a ++ String c rest) = (a, String c rest).
Proof.
  induction a as [|x a IH]; simpl; intros Ha Hc.
  - now rewrite Hc.
  - apply andb_true_iff in Ha as [Hx Ha]. rewrite Hx, IH; auto.
Qed.

Lemma span_all p a :
  forall_chars p a = true -> Py.span p a = (a, EmptyString).
Proof.
  induction a as [|x a IH]; simpl; intros Ha; auto.
  apply andb_true_iff in Ha as [Hx Ha]. rewrite Hx, IH; auto.
Qed.

(** [int] after [str] is the identity on the naturals, and [str] of a
    natural is a run of digits that is not empty. *)
Lemma int_of_digits_from_uint d acc :
  Py.int_of_digits_from acc (NilEmpty.string_of_uint d) = uint_value_from acc d.
Proof.
  revert acc. induction d; intros acc; simpl; auto; rewrite IHd; reflexivity.
Qed.

Lemma of_uint_acc_value d acc :
  Z.pos (Pos.of_uint_acc d acc) = uint_value_from (Z.pos acc) d.
Proof.
  revert acc.
  induction d; intros acc; cbn [Pos.of_uint_acc uint_value_from]; auto;
    rewrite IHd; f_equal; lia.
Qed.

Lemma of_uint_value d : Z.of_N (Pos.of_uint d) = uint_value_from 0 d.
Proof.
  induction d; cbn [Pos.of_uint uint_value_from]; auto;
    rewrite <- ?IHd; try reflexivity; apply of_uint_acc_value.
Qed.

Lemma digits_of_uint d :
  forall_chars Py.is_digit (NilEmpty.string_of_uint d) = true.
Proof. induction d; simpl; auto. Qed.

Lemma int_of_digits_str_of_int n :
  0 <= n -> Py.int_of_digits (Py.str_of_int n) = n.
Proof.
  intros Hn. unfold Py.int_of_digits, Py.str_of_int.
  destruct n as [|p|p]; [reflexivity| |lia].
  simpl. unfold NilZero.string_of_uint.
  pose proof (DecimalPos.Unsigned.to_uint_nonnil p) as Hnil.
  destruct (Pos.to_uint p) eqn:E; [congruence|..];
    rewrite <- E, int_of_digits_from_uint, <- of_uint_value,
      DecimalPos.Unsigned.of_to; reflexivity.
Qed.

Lemma str_of_int_digits n :
  0 <= n ->
  forall_chars Py.is_digit (Py.str_of_int n) = true
  /\ Py.str_of_int n <> EmptyString.
Proof.
  intros Hn. unfold Py.str_of_int.
  destruct n as [|p|p]; [split; [reflexivity|discriminate]| |lia].
  simpl. unfold NilZero.string_of_uint.
  pose proof (DecimalPos.Unsigned.to_uint_nonnil p) as Hnil.
  destruct (Pos.to_uint p) eqn:E; [congruence|..];
    (split; [apply digits_of_uint|simpl; discriminate]).
Qed.

Lemma int_of_digits_from_nonneg s acc :
  forall_chars Py.is_digit s = true -> 0 <= acc ->
  0 <= Py.int_of_digits_from acc s.
Proof.
  revert acc.
  induction s as [|c s IH]; cbn [Py.int_of_digits_from forall_chars];
    intros acc Hs Hacc; auto.
  apply andb_true_iff in Hs as [Hc Hs]. apply IH; auto.
  unfold Py.is_digit in Hc. apply andb_true_iff in Hc as [H1 H2].
  apply Z.leb_le in H1. unfold Py.digit_value, Py.code in *. lia.
Qed.

(** ** The duration parser *)

Example parse_time_2h :
  parse_time 0 "2h" = Ret (Some (7200000000, "2 h.")).
Proof. reflexivity. Qed.

Example parse_time_leading_zeros :
  parse_time 5 "007m" = Ret (Some (420000005, "7 min.")).
Proof. reflexivity. Qed.

Example parse_time_overflow :
  parse_time 0 "99999999999999999999s"
  = Raise (Exn OverflowError "Python int too large to convert to C int").
Proof. reflexivity. Qed.

Example parse_time_too_many_days :
  parse_time 0 "1000000000d"
  = Raise (Exn OverflowError
               "days=1000000000; must have magnitude <= 999999999").
Proof. reflexivity. Qed.

Example repr_list_quotes :
  Py.repr_list ["/mute"; "it's"; "a\b"; String (ascii_of_nat 7) "z"]
  = "['/mute', " ++ String Py.quote2 "it's" ++ String Py.quote2 ", 'a\\b', '\x07z']".
Proof. reflexivity. Qed.

Example parse_time_past_year_9999 :
  parse_time 0 "4000000d" = Raise (Exn OverflowError "date value out of range").
Proof. reflexivity. Qed.

Lemma pattern_unit_not_digit u : In u pattern_units -> Py.is_digit u = false.
Proof.
  unfold pattern_units; simpl.
  intros [<-|[<-|[<-|[<-|[]]]]]; reflexivity.
Qed.

Lemma pattern_unit_in_table u : In u pattern_units -> In u table_units.
Proof.
  unfold pattern_units, table_units; simpl. tauto.
Qed.

Lemma pattern_units_existsb u :
  existsb (Ascii.eqb u) pattern_units = true <-> In u pattern_units.
Proof.
  rewrite existsb_exists. split.
  - intros (x & Hx & E). apply Ascii.eqb_eq in E. now subst.
  - intros H. exists u. split; auto. apply Ascii.eqb_refl.
Qed.

(** The pattern matches exactly the tokens that begin with an amount and
    a unit among s, m, h, d, and its groups are that amount and unit. *)
Lemma re_match_time_Some token amount unit :
  re_match_time token = Some (amount, unit) <->
  exists rest, amount_unit_shape pattern_units token amount unit rest.
Proof.
  unfold re_match_time, amount_unit_shape. split.
  - pose proof (span_spec Py.is_digit token) as H.
    destruct (Py.span Py.is_digit token) as [a b].
    destruct H as (-> & Ha & Hb).
    destruct a as [|x a]; [discriminate|].
    destruct b as [|u rest]; [discriminate|].
    fold pattern_units.
    destruct (existsb (Ascii.eqb u) pattern_units) eqn:E; [|discriminate].
    intros [= <- <-]. exists rest. repeat split; auto.
    + discriminate.
    + now apply pattern_units_existsb.
  - intros (rest & -> & Hne & Hd & Hu).
    rewrite span_app by auto using pattern_unit_not_digit.
    destruct amount as [|x a]; [congruence|].
    fold pattern_units.
    apply pattern_units_existsb in Hu. now rewrite Hu.
Qed.

Lemma re_match_time_None token :
  re_match_time token = None <->
  ~ begins_with_amount_and_unit pattern_units token.
Proof.
  split.
  - intros E (amount & unit & rest & H).
    assert (re_match_time token = Some (amount, unit)) as E'
        by (apply re_match_time_Some; eauto).
    congruence.
  - intros H. destruct (re_match_time token) as [[amount unit]|] eqn:E; auto.
    exfalso. apply H. apply re_match_time_Some in E as (rest & E).
    now exists amount, unit, rest.
Qed.

(** Backtracking finds nothing that the longest run of digits does not
    find: [re_match_time] is the backtracking matcher. *)
Lemma first_match_app l l' :
  first_match (l ++ l')
  = match first_match l with Some g => Some g | None => first_match l' end.
Proof.
  induction l as [|p l IH]; cbn [app first_match]; auto.
  destruct (unit_follows p); auto.
Qed.

Lemma first_match_longer c l :
  first_match (map (fun p => (String c (fst p), snd p)) l)
  = option_map (fun g => (String c (fst g), snd g)) (first_match l).
Proof.
  induction l as [|[a b] l IH]; cbn [map first_match]; auto.
  rewrite IH. unfold unit_follows. cbn [fst snd].
  destruct b as [|u b]; auto.
  destruct (existsb (Ascii.eqb u) pattern_units); auto.
Qed.

Lemma digit_is_no_unit c :
  Py.is_digit c = true -> existsb (Ascii.eqb c) pattern_units = false.
Proof.
  intros Hc. destruct (existsb (Ascii.eqb c) pattern_units) eqn:E; auto.
  apply pattern_units_existsb, pattern_unit_not_digit in E. congruence.
Qed.

Lemma first_match_longest s :
  first_match (digit_prefixes s)
  = let (a, b) := Py.span Py.is_digit s in
    match a with
    | EmptyString => None
    | _ => unit_follows (a, b)
    end.
Proof.
  induction s as [|c s IH]; cbn [digit_prefixes Py.span]; auto.
  destruct (Py.is_digit c) eqn:Hc; auto.
  rewrite first_match_app, first_match_longer, IH.
  pose proof (span_spec Py.is_digit s) as Hs.
  destruct (Py.span Py.is_digit s) as [a b].
  destruct a as [|x a].
  - destruct Hs as (-> & _). cbn [append option_map].
    cbn [first_match]. now destruct (unit_follows (String c EmptyString, b)).
  - destruct Hs as (-> & Hd & _). cbn [forall_chars] in Hd.
    apply andb_true_iff in Hd as [Hx _].
    unfold unit_follows. cbn [fst snd append].
    assert (first_match [(String c EmptyString, String x (a ++ b))] = None) as E.
    { cbn [first_match]. unfold unit_follows. cbn [fst snd].
      now rewrite (digit_is_no_unit x Hx). }
    rewrite E. destruct b as [|u b]; cbn [option_map]; auto.
    destruct (existsb (Ascii.eqb u) pattern_units); auto.
Qed.

Lemma re_match_time_backtracking time_str :
  re_match_time time_str = re_match_backtracking time_str.
Proof.
  unfold re_match_backtracking. rewrite first_match_longest.
  unfold re_match_time, unit_follows.
  destruct (Py.span Py.is_digit time_str) as [a b].
  destruct a, b; reflexivity.
Qed.

(** What follows the unit plays no part in the result. *)
Lemma parse_time_ignores_rest now amount unit rest rest' :
  amount <> EmptyString -> forall_chars Py.is_digit amount = true ->
  In unit pattern_units ->
  parse_time now (amount ++ String unit rest)
  = parse_time now (amount ++ String unit rest').
Proof.
  intros Hne Hd Hu. unfold parse_time.
  assert (forall r, re_match_time (amount ++ String unit r) = Some (amount, unit)) as E.
  { intros r. apply re_match_time_Some. exists r. repeat split; auto. }
  now rewrite !E.
Qed.

(** A token that the pattern matches is never reported as not parseable:
    the parser gives an expiry and a label, or the date arithmetic
    overflows. *)
Lemma parse_time_matched now token amount unit :
  re_match_time token = Some (amount, unit) ->
  parse_time now token <> Ret None.
Proof.
  intros E. unfold parse_time. rewrite E.
  apply re_match_time_Some in E as (rest & _ & _ & _ & Hu).
  unfold pattern_units in Hu; simpl in Hu.
  destruct Hu as [<-|[<-|[<-|[<-|[]]]]]; cbv beta iota zeta;
    match goal with
    | |- context [Py.timedelta ?a ?b ?c ?d ?e] =>
        destruct (Py.timedelta a b c d e) as [delta|err]; simpl;
        [unfold Py.datetime_add;
         destruct ((now + delta <? 0) || (Py.datetime_max <? now + delta));
         simpl; discriminate
        |discriminate]
    end.
Qed.

(** On the units of the pattern the parser follows the table: the expiry
    is [now] plus the amount times the seconds of the unit, the label is
    the amount and the suffix of the unit, as long as the expiry is a date
    that [datetime] can hold. *)
Lemma parse_time_pattern_units now amount unit rest :
  amount <> EmptyString -> forall_chars Py.is_digit amount = true ->
  In unit pattern_units ->
  let n := Py.int_of_digits amount in
  0 <= now ->
  now + n * unit_seconds unit * Py.us_per_second <= Py.datetime_max ->
  parse_time now (amount ++ String unit rest)
  = Ret (Some (now + n * unit_seconds unit * Py.us_per_second,
               Py.str_of_int n ++ unit_suffix unit)).
Proof.
  intros Hne Hd Hu n Hnow Hmax. unfold parse_time.
  assert (re_match_time (amount ++ String unit rest) = Some (amount, unit)) as E.
  { apply re_match_time_Some. exists rest. repeat split; auto. }
  rewrite E. fold n.
  assert (0 <= n) as Hn.
  { apply int_of_digits_from_nonneg; auto. lia. }
  assert (forall secs, 0 <= secs ->
            now + secs * Py.us_per_second <= Py.datetime_max ->
            (Z.abs (secs / 86400) >? 999999999) = false) as Hdays.
  { intros secs H0 H1. unfold Py.datetime_max, Py.us_per_day, Py.us_per_second in H1.
    assert (secs / 86400 <= 3652059).
    { apply Z.div_le_upper_bound; lia. }
    assert (0 <= secs / 86400) by (apply Z.div_pos; lia).
    lia. }
  assert (forall secs, 0 <= secs ->
            now + secs * Py.us_per_second <= Py.datetime_max ->
            Py.datetime_add now (secs * Py.us_per_second)
            = Ret (now + secs * Py.us_per_second)) as Hadd.
  { intros secs H0 H1. unfold Py.datetime_add.
    assert (0 <= secs * Py.us_per_second) by (unfold Py.us_per_second; lia).
    replace ((now + secs * Py.us_per_second <? 0)
             || (Py.datetime_max <? now + secs * Py.us_per_second)) with false;
      [reflexivity|symmetry; apply orb_false_iff; split; lia]. }
  unfold pattern_units in Hu; simpl in Hu.
  destruct Hu as [<-|[<-|[<-|[<-|[]]]]];
    cbv beta iota zeta; unfold Py.timedelta; cbv zeta;
    cbn [unit_seconds unit_suffix] in *; unfold Py.us_per_second in *;
    (rewrite Hdays by lia); cbn [bind outcome_Monad obind];
    (rewrite Hadd by lia); cbn [obind];
    match goal with
    | |- Ret (Some (?a, _)) = Ret (Some (?b, _)) =>
        replace a with b by lia; reflexivity
    end.
Qed.

(** For a natural [n] written in decimal and a unit among s, m, h, d. *)
Lemma parse_time_natural now n unit :
  0 <= n -> In unit pattern_units -> 0 <= now ->
  now + n * unit_seconds unit * Py.us_per_second <= Py.datetime_max ->
  parse_time now (Py.str_of_int n ++ String unit EmptyString)
  = Ret (Some (now + n * unit_seconds unit * Py.us_per_second,
               Py.str_of_int n ++ unit_suffix unit)).
Proof.
  intros Hn Hu Hnow Hmax.
  destruct (str_of_int_digits n Hn) as [Hd Hne].
  pose proof (parse_time_pattern_units now (Py.str_of_int n) unit EmptyString
                Hne Hd Hu) as H.
  cbv zeta in H. rewrite (int_of_digits_str_of_int n Hn) in H. auto.
Qed.

(** A token that the pattern does not match is not parseable. *)
Lemma parse_time_unmatched now token :
  re_match_time token = None -> parse_time now token = Ret None.
Proof. intros E. unfold parse_time. now rewrite E. Qed.

(** A unit outside s, m, h, d is not parseable, whatever the amount. *)
Lemma parse_time_outside_pattern now amount unit rest :
  forall_chars Py.is_digit amount = true -> Py.is_digit unit = false ->
  ~ In unit pattern_units ->
  parse_time now (amount ++ String unit rest) = Ret None.
Proof.
  intros Hd Hu Hn. apply parse_time_unmatched. unfold re_match_time.
  rewrite span_app by auto.
  destruct amount; auto. fold pattern_units.
  destruct (existsb (Ascii.eqb unit) pattern_units) eqn:E; auto.
  apply pattern_units_existsb in E. contradiction.
Qed.

(** C2, at the tokens where the code departs from the claim: the units w, M
    and y are in the table of the claim and have their branches in
    [parse_time], but the pattern of [parse_time] stops at s, m, h, d, so
    the tokens "2w", "2M" and "2y" are reported as not parseable instead of
    giving the expiry [now] + 2 x 7 days, 2 x 30 days and 2 x 365 days. *)
Theorem parse_time_w_M_y_not_parsed (now : Py.datetime) :
  parse_time now "2w" = Ret None
  /\ parse_time now "2M" = Ret None
  /\ parse_time now "2y" = Ret None.
Proof. repeat split. Qed.

(** C6, as the claim states it, fails on a token with characters after the
    unit: "2h30m" is parsed as two hours. *)
Lemma parse_time_trailing_characters_accepted :
  parse_time 0 "2h30m" = Ret (Some (7200000000, "2 h."))
  /\ parse_time 0 "2h30m" <> Ret None.
Proof. split; [reflexivity|discriminate]. Qed.

(** C6, amended: for a token of ASCII characters, [parse_time] reports the
    token as not parseable whenever it does not begin with a run of digits,
    not empty, followed by a unit of the table; so for the empty string,
    for a token whose first character is an ASCII character that is not a
    digit, and for a token of the digits 0 to 9 without a unit.
    Characters after the unit are ignored: a token that begins with an
    amount and one of the units s, m, h, d is never reported as not
    parseable and gives what the amount and the unit alone give. *)
Theorem parse_time_not_parseable (now : Py.datetime) :
  (forall token,
      Py.isascii token = true ->
      ~ begins_with_amount_and_unit table_units token ->
      parse_time now token = Ret None)
  /\ parse_time now EmptyString = Ret None
  /\ (forall c rest,
         Py.code c < 128 ->
         Py.is_digit c = false -> parse_time now (String c rest) = Ret None)
  /\ (forall amount,
         forall_chars Py.is_digit amount = true ->
         parse_time now amount = Ret None)
  /\ (forall token amount unit rest,
         amount_unit_shape pattern_units token amount unit rest ->
         parse_time now token <> Ret None
         /\ parse_time now token
            = parse_time now (amount ++ String unit EmptyString)).
Proof.
  repeat split.
  - intros token _ H. apply parse_time_unmatched, re_match_time_None.
    intros (amount & unit & rest & E & Hne & Hd & Hu). apply H.
    exists amount, unit, rest. repeat split; auto using pattern_unit_in_table.
  - intros c rest _ Hc. apply parse_time_unmatched.
    unfold re_match_time. simpl. now rewrite Hc.
  - intros amount Hd. apply parse_time_unmatched.
    unfold re_match_time. rewrite span_all by auto. now destruct amount.
  - pose proof H as (E & Hne & Hd & Hu).
    apply (parse_time_matched now token amount unit).
    apply re_match_time_Some. eauto.
  - destruct H as (-> & Hne & Hd & Hu).
    now apply parse_time_ignores_rest.
Qed.

Lemma parse_time_not_parseable_witness :
  parse_time 0 "abc" = Ret None
  /\ parse_time 0 "x15" = Ret None
  /\ parse_time 0 "90" = Ret None
  /\ parse_time 0 "2h30m" <> Ret None
  /\ parse_time 0 "2h30m" = parse_time 0 "2h".
Proof.
  pose proof (parse_time_not_parseable 0) as (H1 & _ & H3 & H4 & H5).
  assert (amount_unit_shape pattern_units "2h30m" "2" "h" "30m") as S.
  { repeat split; [discriminate|simpl; auto]. }
  split; [|split; [|split; [|split]]].
  - apply H1; [reflexivity|].
    intros (amount & unit & rest & E & Hne & Hd & _).
    destruct amount as [|c amount]; [congruence|].
    simpl in E, Hd. injection E as <- _. discriminate.
  - apply H3; [vm_compute; reflexivity|reflexivity].
  - apply H4. reflexivity.
  - apply (H5 _ _ _ _ S).
  - apply (H5 _ _ _ _ S).
Defined.

(** ** The handler monad *)

(** Unfolding of the coroutines down to the answers of the remote service. *)
Ltac unfold_M :=
  unfold run, reply, answer, await, ask, now, lift, raise,
    logging_info, logging_error, print, asyncio_sleep,
    suppress_TelegramBadRequest, try_except;
  cbn [bind ret M_Monad]; unfold mbind, mret; cbv beta iota zeta.

Ltac unfold_helpers :=
  unfold check_admin, is_bot_admin, is_user_admin, send_error, send_invite.

(** One step of a run: the next answer of the remote service is known from
    a hypothesis, or the run branches on it. *)
Ltac known_answer :=
  match goal with
  | H : remote ?w ?tr ?c = _ |- context [remote ?w ?tr ?c] => rewrite H
  | H : forall tr, remote ?w tr ?c = _ |- context [remote ?w ?tr' ?c] =>
      rewrite (H tr')
  | H : has_role ?w ?chat ?user _ |- context [remote ?w ?tr' (get_chat_member ?chat ?user)] =>
      rewrite (H tr')
  end.

(** A test of the code whose value does not depend on the world. *)
Ltac decide_test :=
  match goal with
  | |- context [if ?b then _ else _] =>
      let v := eval vm_compute in b in
      lazymatch v with
      | true => change b with true
      | false => change b with false
      end
  end.

Ltac tidy := cbn [fst snd app negb failure]; rewrite <- ?app_assoc; cbn [app].

(** ** The permission gate *)

(** C8: [check_admin] asks for the role of the bot before anything else,
    and when the remote service answers that lookup with a role that is not
    an administrator's, it looks nothing else up: after that lookup it
    sends the reply that the bot is not an administrator and stops, with
    [False] when the reply was delivered and with the exception of the
    reply otherwise; it never answers [True].  The role of the actor is not
    asked for, so it plays no part. *)
Theorem check_admin_bot_first (w : World) (message : Message) :
  let bot_lookup := get_chat_member (chat_id message) (bot_id w) in
  let denial :=
    message_reply (chat_id message) (message_id message) bot_not_admin_text in
  hd_error (snd (run (check_admin message) w))
  = Some (Called bot_lookup (remote w [] bot_lookup))
  /\ forall tr status,
      remote w tr bot_lookup = Ret status ->
      in_admin_statuses status = false ->
      let asked := Called bot_lookup (Ret status) in
      let delivered := remote w (tr ++ [asked]) denial in
      check_admin message w tr
      = (match delivered with Ret _ => Ret false | Raise e => Raise e end,
         (tr ++ [asked; Called denial delivered])%list)
      /\ fst (check_admin message w tr) <> Ret true.
Proof.
  intros bot_lookup denial. split.
  - unfold_helpers; unfold_M. fold bot_lookup.
    destruct (remote w [] bot_lookup) as [status|e]; [|reflexivity].
    cbv beta iota zeta.
    destruct (in_admin_statuses status); cbn [negb]; cbv beta iota zeta.
    + match goal with
      | |- context [remote w ?tr ?c] => destruct (remote w tr c) as [status'|e]
      end; [|reflexivity].
      cbv beta iota zeta.
      destruct (in_admin_statuses status'); cbn [negb]; cbv beta iota zeta;
        [reflexivity|].
      match goal with
      | |- context [remote w ?tr ?c] => destruct (remote w tr c)
      end; reflexivity.
    + match goal with
      | |- context [remote w ?tr ?c] => destruct (remote w tr c)
      end; reflexivity.
  - intros tr status Hbot Hrole asked delivered.
    assert (check_admin message w tr
            = (match delivered with Ret _ => Ret false | Raise e => Raise e end,
               (tr ++ [asked; Called denial delivered])%list)) as E.
    { unfold_helpers; unfold_M. fold bot_lookup. rewrite Hbot.
      cbv beta iota zeta. rewrite Hrole. cbv beta iota zeta delta [negb].
      fold asked. fold denial. fold delivered.
      destruct delivered; tidy; reflexivity. }
    split; [exact E|]. rewrite E. destruct delivered; discriminate.
Qed.

Lemma check_admin_bot_first_witness :
  let w := world_of (roles_of [7]) nothing_fails in
  fst (run (check_admin (command "/ban")) w) = Ret false
  /\ count_calls GetChatMember (snd (run (check_admin (command "/ban")) w)) = 1%nat
  /\ remote w [] (get_chat_member (-100) 7) = Ret ADMINISTRATOR.
Proof.
  intros w.
  destruct (check_admin_bot_first w (command "/ban")) as [_ H].
  destruct (H [] MEMBER eq_refl eq_refl) as [E _].
  unfold run. rewrite E. repeat split.
Defined.

(** ** Runs and traces *)

Lemma each_event_spec P tr :
  each_event P tr ->
  forall before ev after, tr = (before ++ ev :: after)%list -> P ev after.
Proof.
  intros H before. revert tr H.
  induction before as [|x before IH]; intros tr H ev after ->; simpl in H.
  - tauto.
  - destruct H as [_ H]. eapply IH; eauto.
Qed.

(** All the runs of a coroutine: the run branches on every answer of the
    remote service, oldest first, and on every test of the code. *)
Ltac branch :=
  match goal with
  | |- context [remote ?w ?tr ?c] =>
      lazymatch tr with
      | context [remote] => fail
      | _ => destruct (remote w tr c) eqn:?
      end
  | |- context [match reply_to_message ?m with _ => _ end] =>
      destruct (reply_to_message m) eqn:?
  | |- context [if ?b then _ else _] => destruct b eqn:?
  end.

Ltac only_unit := match goal with a : unit |- _ => destruct a end.

Ltac explore :=
  repeat first [progress cbv beta iota zeta | progress cbn [negb]
               | only_unit | branch].

Ltac unfold_commands :=
  unfold func_kick, func_unban, func_mute, func_unmute,
    mute_parse_and_execute, mute_execute, Py.list_getattr.

Ltac runs := unfold_commands; unfold_helpers; unfold_M; explore.

Ltac trace_facts :=
  cbn [fst snd app each_event failed_call succeeded_call calls name_of
       call_name_eqb failure last_event last map sent_text].









(** ** Mute *)

(** The runs of [func_mute] never reach the execution stage: there is no
    call of the restrict operation and no confirmation in any of them. *)
Lemma func_mute_never_restricts w message :
  count_calls RestrictChatMember (snd (run (func_mute message) w)) = 0%nat
  /\ count_calls MessageAnswer (snd (run (func_mute message) w)) = 0%nat.
Proof.
  runs; split; reflexivity.
Qed.

(** C1, at the invocation of the claim: the command "/mute 2h spam" sent by
    an administrator in reply to a member, the bot being an administrator.
    The handler gets as far as the check of the target and then reads the
    attribute [args] of the list [command_text], which raises
    [AttributeError]: the duration is never parsed, the restrict operation
    is never called and no confirmation is sent. *)
Theorem func_mute_2h_spam_raises (w : World) (message reply_message : Message)
    (bot_status actor_status target_status : ChatMemberStatus) :
  text message = "/mute 2h spam" ->
  reply_to_message message = Some reply_message ->
  has_role w (chat_id message) (bot_id w) bot_status ->
  in_admin_statuses bot_status = true ->
  has_role w (chat_id message) (id (from_user message)) actor_status ->
  in_admin_statuses actor_status = true ->
  has_role w (chat_id message) (id (from_user reply_message)) target_status ->
  in_admin_statuses target_status = false ->
  run (func_mute message) w
  = (Raise (Exn AttributeError "'list' object has no attribute 'args'"),
     [Logged INFO "Mute command received";
      Called (get_chat_member (chat_id message) (bot_id w)) (Ret bot_status);
      Called (get_chat_member (chat_id message) (id (from_user message)))
             (Ret actor_status);
      Logged INFO "Command text: ['/mute', '2h spam']";
      Logged INFO "Arguments: '2h spam'";
      Called (get_chat_member (chat_id message) (id (from_user reply_message)))
             (Ret target_status)]).
Proof.
  intros Htext Hreply Hbot Hbot_admin Hactor Hactor_admin Htarget Htarget_admin.
  unfold_commands; unfold_helpers; unfold_M.
  rewrite Htext, Hreply.
  repeat first [progress cbv beta iota zeta | known_answer | decide_test
               | rewrite Hbot_admin | rewrite Hactor_admin
               | rewrite Htarget_admin | progress cbn [negb app]].
  reflexivity.
Qed.

Lemma func_mute_2h_spam_raises_witness :
  let w := world_of (roles_of [1; 7]) nothing_fails in
  fst (run (func_mute (command "/mute 2h spam")) w)
  = Raise (Exn AttributeError "'list' object has no attribute 'args'")
  /\ count_calls RestrictChatMember
       (snd (run (func_mute (command "/mute 2h spam")) w)) = 0%nat
  /\ filter user_facing (snd (run (func_mute (command "/mute 2h spam")) w)) = [].
Proof.
  intros w.
  rewrite (func_mute_2h_spam_raises w (command "/mute 2h spam") replied
             ADMINISTRATOR ADMINISTRATOR MEMBER);
    try reflexivity; try (intros tr; reflexivity).
  repeat split.
Defined.

Example mute_message_2h_spam :
  mute_message replied 9 "2 h." (Some "spam")
  = "🔇 <a href='tg://user?id=9'>Tar Get</a> был заглушен на 2 h."
    ++ Py.nl ++ "Причина: spam".
Proof. reflexivity. Qed.


(** C10: in the execution stage of the mute handler, when the remote
    service answers the restrict call with a bad-request error, the
    [suppress] block ends there: the stage makes no other call, so neither
    a confirmation nor an error reply is sent, and it ends normally.  What
    the users see after the stage is what they saw before it. *)
Theorem mute_execute_bad_request_is_silent (w : World)
    (message reply_message : Message) (user : Z) (until_date : Py.datetime)
    (duration_str : string) (reason : option string) (tr : list event)
    (e : exn) :
  let restrict :=
    restrict_chat_member (chat_id message) user (Some until_date)
      {| can_send_messages := Some false; can_send_other_messages := None |} in
  remote w tr restrict = Raise e ->
  exn_kind e = TelegramBadRequest ->
  mute_execute message reply_message user until_date duration_str reason w tr
  = (Ret tt, (tr ++ [Called restrict (Raise e)])%list)
  /\ filter user_facing
       (snd (mute_execute message reply_message user until_date duration_str
               reason w tr))
     = filter user_facing tr.
Proof.
  intros restrict Hfail Hkind.
  assert (mute_execute message reply_message user until_date duration_str
            reason w tr
          = (Ret tt, (tr ++ [Called restrict (Raise e)])%list)) as E.
  { unfold_commands; unfold_M. fold restrict. rewrite Hfail.
    cbv beta iota zeta. now rewrite Hkind. }
  split; [exact E|].
  rewrite E. cbn [snd]. rewrite filter_app. cbn. apply app_nil_r.
Qed.

Lemma mute_execute_bad_request_is_silent_witness :
  let w := world_of (roles_of [1; 7]) (failing RestrictChatMember bad_request) in
  mute_execute (command "/mute 2h spam") replied 9 7200000000 "2 h."
    (Some "spam") w []
  = (Ret tt,
     [Called (restrict_chat_member (-100) 9 (Some 7200000000)
                {| can_send_messages := Some false;
                   can_send_other_messages := None |})
             (Raise bad_request)]).
Proof.
  intros w.
  apply (mute_execute_bad_request_is_silent w (command "/mute 2h spam") replied
           9 7200000000 "2 h." (Some "spam") [] bad_request);
    reflexivity.
Defined.

(** Any other exception of the restrict call leaves the stage. *)
Lemma mute_execute_other_exception_escapes w message reply_message user
      until_date duration_str reason tr e :
  remote w tr
    (restrict_chat_member (chat_id message) user (Some until_date)
       {| can_send_messages := Some false; can_send_other_messages := None |})
  = Raise e ->
  exn_class_eqb (exn_kind e) TelegramBadRequest = false ->
  fst (mute_execute message reply_message user until_date duration_str reason w tr)
  = Raise e.
Proof.
  intros Hfail Hkind. unfold_commands; unfold_M. rewrite Hfail.
  cbv beta iota zeta. now rewrite Hkind.
Qed.

(** ** Ban *)

Ltac known_role :=
  match goal with
  | H : in_admin_statuses ?s = _ |- context [in_admin_statuses ?s] => rewrite H
  end.

(** The runs that agree with what is known of the world. *)
Ltac explore_known :=
  repeat first [progress cbv beta iota zeta | progress cbn [negb]
               | only_unit | known_answer | known_role | branch].

(** C7, as the claim states it, fails when the actor is not an
    administrator: the ban of an administrator by an ordinary member ends
    at the permission gate, with the reply that the actor is not an
    administrator and without the reply that administrators cannot be
    banned. *)
Lemma ban_of_administrator_by_member :
  let w := world_of (roles_of [1; 9]) nothing_fails in
  remote w [] (get_chat_member (-100) 9) = Ret ADMINISTRATOR
  /\ run (func_kick (command "/ban")) w
     = (Ret tt,
        [Logged INFO "Ban command received";
         Called (get_chat_member (-100) 1) (Ret ADMINISTRATOR);
         Called (get_chat_member (-100) 7) (Ret MEMBER);
         Called (message_reply (-100) 41 user_not_admin_text) (Ret tt);
         Logged INFO "User is not admin"])
  /\ existsb (sends (error_text_markup cannot_ban_admin_text))
       (snd (run (func_kick (command "/ban")) w)) = false.
Proof. repeat split. Qed.

(** C7, amended: a ban whose reply-target has the role of an administrator
    or of the owner makes no call of the remote ban operation, whoever
    sends it; and when the bot and the actor are administrators, what the
    handler does after the three lookups is the reply that administrators
    cannot be banned, with a log record when the reply could not be sent,
    and it ends normally. *)
Theorem ban_of_administrator_refused (w : World)
    (message reply_message : Message) (target_status : ChatMemberStatus) :
  reply_to_message message = Some reply_message ->
  has_role w (chat_id message) (id (from_user reply_message)) target_status ->
  in_admin_statuses target_status = true ->
  count_calls BanChatMember (snd (run (func_kick message) w)) = 0%nat
  /\ (forall bot_status actor_status,
         has_role w (chat_id message) (bot_id w) bot_status ->
         in_admin_statuses bot_status = true ->
         has_role w (chat_id message) (id (from_user message)) actor_status ->
         in_admin_statuses actor_status = true ->
         exists delivered,
           run (func_kick message) w
           = (Ret tt,
              [Logged INFO "Ban command received";
               Called (get_chat_member (chat_id message) (bot_id w))
                      (Ret bot_status);
               Called (get_chat_member (chat_id message) (id (from_user message)))
                      (Ret actor_status);
               Called (get_chat_member (chat_id message)
                                       (id (from_user reply_message)))
                      (Ret target_status);
               Called (message_reply (chat_id message) (message_id message)
                         (error_text_markup cannot_ban_admin_text))
                      delivered]
              ++ send_error_log delivered)%list).
Proof.
  intros Hreply Htarget Hadmin. split.
  - unfold_commands; unfold_helpers; unfold_M. rewrite Hreply.
    explore_known; reflexivity.
  - intros bot_status actor_status Hbot Hbot_admin Hactor Hactor_admin.
    unfold_commands; unfold_helpers; unfold_M. rewrite Hreply.
    explore_known;
      match goal with
      | H : remote _ _ (message_reply _ _ _) = ?delivered |- _ =>
          exists delivered
      end;
      tidy; reflexivity.
Qed.

Lemma ban_of_administrator_refused_witness :
  let w := world_of (roles_of [1; 7; 9]) nothing_fails in
  count_calls BanChatMember (snd (run (func_kick (command "/ban")) w)) = 0%nat
  /\ existsb (sends (error_text_markup cannot_ban_admin_text))
       (snd (run (func_kick (command "/ban")) w)) = true.
Proof.
  intros w.
  destruct (ban_of_administrator_refused w (command "/ban") replied
              ADMINISTRATOR eq_refl (fun tr => eq_refl) eq_refl) as [H0 H1].
  split; [exact H0|].
  destruct (H1 ADMINISTRATOR ADMINISTRATOR (fun tr => eq_refl) eq_refl
               (fun tr => eq_refl) eq_refl) as [delivered E].
  rewrite E. reflexivity.
Defined.

(** ** Failures of the remote layer *)

(** A property of every event of the trace of a run and of what comes
    after it is checked event by event. *)
Ltac on_each_event :=
  let before := fresh "before" in
  let ev := fresh "ev" in
  let after := fresh "after" in
  let e := fresh "e" in
  let Htr := fresh "Htr" in
  let Hfail := fresh "Hfail" in
  intros before ev after e Htr Hfail; cbn [fst snd] in Htr |- *;
  revert e Hfail; pattern ev, after;
  lazymatch goal with
  | Htr : ?tr = _ |- ?P ev after =>
      cbv beta;
      apply (each_event_spec P tr) with (before := before); [|exact Htr]
  end;
  trace_facts.







(** [send_error] never raises: a reply that cannot be sent is logged. *)
Lemma send_error_never_raises w message error_text tr :
  let sent :=
    message_reply (chat_id message) (message_id message)
      (error_text_markup error_text) in
  send_error message error_text w tr
  = (Ret tt, (tr ++ Called sent (remote w tr sent)
                 :: send_error_log (remote w tr sent))%list).
Proof.
  intros sent. unfold_helpers; unfold_M. fold sent.
  destruct (remote w tr sent) as [[]|e]; tidy; reflexivity.
Qed.


(** The unmute handler has no [try] block: a bad request of the restrict
    call leaves it, and nothing is replied. *)
Example unmute_restrict_exception_escapes :
  let w := world_of (roles_of [1; 7]) (failing RestrictChatMember bad_request) in
  run (func_unmute (command "/unmute")) w
  = (Raise bad_request,
     [Called (get_chat_member (-100) 1) (Ret ADMINISTRATOR);
      Called (get_chat_member (-100) 7) (Ret ADMINISTRATOR);
      Called (restrict_chat_member (-100) 9 None
                {| can_send_messages := Some true;
                   can_send_other_messages := Some true |})
             (Raise bad_request)]).
Proof. reflexivity. Qed.



(** ** Unban and the invite *)

(** [send_invite] keeps a failure of the invite to itself: it logs it and
    ends normally. *)
Lemma send_invite_failure_is_logged w user tr e :
  remote w tr (send_message user (CHAT_LINK w)) = Raise e ->
  send_invite user w tr
  = (Ret tt,
     (tr ++ [Called (send_message user (CHAT_LINK w)) (Raise e);
             Logged ERROR ("Failed to send invite: " ++ exn_str e)])%list).
Proof.
  intros H. unfold_helpers; unfold_M. rewrite H. tidy. reflexivity.
Qed.

Lemma invite_failure_reported w message :
  forall before ev after e,
    snd (run (func_unban message) w) = (before ++ ev :: after)%list ->
    failed_call SendMessage ev = Some e ->
    exists delivered,
      after
      = Called (message_reply (chat_id message) (message_id message)
                  (error_text_markup ("Произошла ошибка: " ++ exn_str e)))
               delivered
        :: send_error_log delivered.
Proof.
  runs; on_each_event;
    repeat lazymatch goal with
      | |- True => exact I
      | |- _ /\ _ => split
      | |- forall _, _ = _ -> _ =>
          intros ? [=]; subst;
          lazymatch goal with
          | |- exists delivered, Called _ ?d :: _ = _ => exists d; reflexivity
          end
      end.
Qed.

(** C5, at the invocations where the code departs from the claim: in every
    run of the unban handler in which the invite cannot be sent, the next
    thing the handler does is to reply to the moderator with the failure
    marker and the text of the exception of the invite; the failure is not
    kept to the log. *)
Theorem unban_invite_failure_is_replied (w : World) (message : Message)
    (before after : list event) (ev : event) (e : exn) :
  snd (run (func_unban message) w) = (before ++ ev :: after)%list ->
  failed_call SendMessage ev = Some e ->
  exists delivered,
    after
    = Called (message_reply (chat_id message) (message_id message)
                (error_text_markup ("Произошла ошибка: " ++ exn_str e)))
             delivered
      :: send_error_log delivered.
Proof. apply invite_failure_reported. Qed.

Example unban_invite_forbidden :
  let w := world_of (roles_of [1; 7]) (failing SendMessage forbidden) in
  run (func_unban (command "/unban")) w
  = (Ret tt,
     [Called (get_chat_member (-100) 1) (Ret ADMINISTRATOR);
      Called (get_chat_member (-100) 7) (Ret ADMINISTRATOR);
      Called (unban_chat_member (-100) 9 true) (Ret tt);
      Called (message_answer (-100) unban_done_text) (Ret tt);
      Called (send_message 9 "https://t.me/+invite") (Raise forbidden);
      Called (message_reply (-100) 41
                "<b>❌ Произошла ошибка: Forbidden: bot can't initiate conversation with a user</b>")
             (Ret tt)]).
Proof. reflexivity. Qed.

Lemma unban_invite_failure_is_replied_witness :
  let w := world_of (roles_of [1; 7]) (failing SendMessage forbidden) in
  exists delivered,
    [Called (message_reply (-100) 41
               "<b>❌ Произошла ошибка: Forbidden: bot can't initiate conversation with a user</b>")
            (Ret tt)]
    = Called (message_reply (-100) 41
                (error_text_markup ("Произошла ошибка: " ++ exn_str forbidden)))
             delivered
      :: send_error_log delivered.
Proof.
  intros w.
  apply (unban_invite_failure_is_replied w (command "/unban")
           [Called (get_chat_member (-100) 1) (Ret ADMINISTRATOR);
            Called (get_chat_member (-100) 7) (Ret ADMINISTRATOR);
            Called (unban_chat_member (-100) 9 true) (Ret tt);
            Called (message_answer (-100) unban_done_text) (Ret tt)]
           _ (Called (send_message 9 "https://t.me/+invite") (Raise forbidden)));
    reflexivity.
Defined.

(** ** The bootstrap retrier *)

Example retry_first_attempt_succeeds :
  run (delete_webhook_with_retry 3 5) (world_of (roles_of []) nothing_fails)
  = (Ret tt, [Called (delete_webhook true) (Ret tt); webhook_deleted]).
Proof. reflexivity. Qed.

Example retry_connector_error :
  run (delete_webhook_with_retry 3 5)
      (world_of (roles_of [])
         (failing DeleteWebhook (Exn ClientConnectorError "cannot connect")))
  = (Raise no_ClientConnectorError,
     [Called (delete_webhook true)
             (Raise (Exn ClientConnectorError "cannot connect"))]).
Proof. reflexivity. Qed.

Lemma range_positive retries :
  1 <= retries -> exists rest, range retries = 0 :: rest.
Proof.
  intros H. unfold range.
  destruct (Z.to_nat retries) as [|n] eqn:E; [lia|].
  cbn [seq map]. eauto.
Qed.

(** What the retrier does, in every world: nothing but the terminal line
    when no attempt is allowed; otherwise one attempt, which either
    succeeds or ends the retrier with the exception of its first [except]
    clause. *)
Lemma delete_webhook_with_retry_runs w retries delay :
  run (delete_webhook_with_retry retries delay) w
  = if retries <=? 0 then (Ret tt, [webhook_given_up])
    else match remote w [] (delete_webhook true) with
         | Ret _ =>
             (Ret tt, [Called (delete_webhook true) (Ret tt); webhook_deleted])
         | Raise e =>
             (Raise no_ClientConnectorError,
              [Called (delete_webhook true) (Raise e)])
         end.
Proof.
  unfold run, delete_webhook_with_retry.
  destruct (retries <=? 0) eqn:H.
  - apply Z.leb_le in H. unfold range.
    replace (Z.to_nat retries) with 0%nat by lia. reflexivity.
  - apply Z.leb_gt in H.
    destruct (range_positive retries) as [rest ->]; [lia|].
    cbn [delete_webhook_loop]. unfold aiohttp_ClientConnectorError. unfold_M.
    destruct (remote w [] (delete_webhook true)) as [[]|e]; reflexivity.
Qed.

(** C9, at the runs where the code departs from the claim: when the first
    attempt to delete the webhook raises, whatever the exception and
    however many attempts are allowed, the retrier makes no other attempt.
    The exception reaches the clause [except aiohttp.ClientConnectorError],
    the evaluation of that class raises [AttributeError], and this
    exception leaves the retrier: nothing is printed, there is no pause and
    no terminal failure line, and the retrier does not return normally. *)
Theorem delete_webhook_with_retry_stops_at_first_failure (w : World)
    (retries delay : Z) (e : exn) :
  1 <= retries ->
  remote w [] (delete_webhook true) = Raise e ->
  run (delete_webhook_with_retry retries delay) w
  = (Raise no_ClientConnectorError, [Called (delete_webhook true) (Raise e)]).
Proof.
  intros Hretries Hfail. rewrite delete_webhook_with_retry_runs.
  replace (retries <=? 0) with false by (symmetry; apply Z.leb_gt; lia).
  now rewrite Hfail.
Qed.

Lemma delete_webhook_with_retry_stops_at_first_failure_witness :
  let result :=
    run (delete_webhook_with_retry 3 5)
        (world_of (roles_of []) (failing DeleteWebhook network_error)) in
  fst result = Raise no_ClientConnectorError
  /\ attempts (snd result) = 1%nat
  /\ existsb (fun ev => match ev with Printed _ => true | _ => false end)
       (snd result) = false.
Proof.
  intros result. unfold result.
  rewrite (delete_webhook_with_retry_stops_at_first_failure
             (world_of (roles_of []) (failing DeleteWebhook network_error))
             3 5 network_error); [|lia|reflexivity].
  repeat split.
Defined.

(** With a number of attempts that is zero or less the retrier makes no
    attempt and gives up at once. *)
Lemma delete_webhook_with_retry_no_attempt w retries delay :
  retries <= 0 ->
  run (delete_webhook_with_retry retries delay) w = (Ret tt, [webhook_given_up]).
Proof.
  intros H. rewrite delete_webhook_with_retry_runs.
  replace (retries <=? 0) with true by (symmetry; apply Z.leb_le; lia).
  reflexivity.
Qed.

(** * Further properties *)

(** ** The duration parser, on the units of its pattern *)

Lemma int_of_digits_nonneg amount :
  forall_chars Py.is_digit amount = true -> 0 <= Py.int_of_digits amount.
Proof.
  intros H. apply int_of_digits_from_nonneg; auto. lia.
Qed.

(** X1: on a token that begins with an amount of at most 4300 digits and
    one of the units s, m, h, d, the parser either follows the table or
    overflows, and the expiry of the table decides which: when [now] plus
    the amount times the seconds of the unit is a date that [datetime] can
    hold, that date is the expiry and the label is the amount, read as a
    number, with the suffix of the unit; when it is past [datetime.max],
    the parser raises [OverflowError]. *)
Theorem parse_time_table_or_overflow (now : Py.datetime)
    (amount : string) (unit : ascii) (rest : string) :
  amount <> EmptyString ->
  forall_chars Py.is_digit amount = true ->
  (String.length amount <= Py.int_max_str_digits)%nat ->
  In unit pattern_units ->
  0 <= now ->
  let n := Py.int_of_digits amount in
  let expiry := now + n * unit_seconds unit * Py.us_per_second in
  (expiry <= Py.datetime_max ->
   parse_time now (amount ++ String unit rest)
   = Ret (Some (expiry, Py.str_of_int n ++ unit_suffix unit)))
  /\ (Py.datetime_max < expiry ->
      exists text,
        parse_time now (amount ++ String unit rest)
        = Raise (Exn OverflowError text)).
Proof.
  intros Hne Hd _ Hu Hnow n expiry. split.
  - intros Hmax. now apply parse_time_pattern_units.
  - intros Hmax. unfold parse_time.
    assert (re_match_time (amount ++ String unit rest) = Some (amount, unit)) as E.
    { apply re_match_time_Some. exists rest. repeat split; auto. }
    rewrite E. fold n.
    pose proof (int_of_digits_nonneg amount Hd) as Hn. fold n in Hn.
    unfold expiry in Hmax. unfold pattern_units in Hu; simpl in Hu.
    destruct Hu as [<-|[<-|[<-|[<-|[]]]]];
      cbv beta iota zeta; unfold Py.timedelta; cbv zeta;
      cbn [unit_seconds] in Hmax;
      match goal with
      | |- context [if Z.abs ?days >? 999999999 then _ else _] =>
          destruct (Z.abs days >? 999999999); cbn [bind outcome_Monad obind];
          [eexists; reflexivity|]
      end;
      unfold Py.datetime_add;
      match goal with
      | |- context [if ?past then _ else _] =>
          replace past with true;
          [cbn [obind]; eexists; reflexivity
          |symmetry; apply orb_true_iff; right; apply Z.ltb_lt;
           unfold Py.us_per_second in *; lia]
      end.
Qed.

Lemma parse_time_table_or_overflow_witness :
  parse_time 1000 "007m and more" = Ret (Some (420001000, "7 min."))
  /\ exists text, parse_time 1000 "4000000d" = Raise (Exn OverflowError text).
Proof.
  destruct (parse_time_table_or_overflow 1000 "007" "m" " and more")
    as [H _];
    [discriminate|reflexivity|unfold Py.int_max_str_digits; cbn; lia|simpl; auto|lia|].
  destruct (parse_time_table_or_overflow 1000 "4000000" "d" "")
    as [_ H'];
    [discriminate|reflexivity|unfold Py.int_max_str_digits; cbn; lia|simpl; auto|lia|].
  split.
  - apply H. unfold Py.datetime_max, Py.us_per_day, Py.us_per_second.
    vm_compute. discriminate.
  - apply H'. vm_compute. reflexivity.
Defined.

(** X2: an expiry that the parser returns is never before [now] and never
    past [datetime.max], whatever the token. *)
Theorem parse_time_expiry_in_range (now : Py.datetime) (token : string)
    (until_date : Py.datetime) (label : string) :
  parse_time now token = Ret (Some (until_date, label)) ->
  now <= until_date <= Py.datetime_max.
Proof.
  unfold parse_time.
  destruct (re_match_time token) as [[amount unit]|] eqn:E; [|discriminate].
  apply re_match_time_Some in E as (rest & _ & _ & Hd & Hu).
  pose proof (int_of_digits_nonneg amount Hd) as Hn.
  unfold pattern_units in Hu; simpl in Hu.
  destruct Hu as [<-|[<-|[<-|[<-|[]]]]];
    cbv beta iota zeta; unfold Py.timedelta; cbv zeta;
    match goal with
    | |- context [if ?overflow then _ else _] =>
        destruct overflow; cbn [bind outcome_Monad obind]; [discriminate|]
    end;
    match goal with
    | |- context [Py.datetime_add now ?delta] =>
        assert (0 <= delta) by (unfold Py.us_per_second; lia);
        set (d := delta) in *; clearbody d
    end;
    unfold Py.datetime_add;
    (destruct ((now + d <? 0) || (Py.datetime_max <? now + d)) eqn:Hpast;
     cbn [obind]; [discriminate|]);
    intros [= <- _];
    apply orb_false_iff in Hpast as [_ Hpast]; apply Z.ltb_ge in Hpast; lia.
Qed.

Lemma parse_time_expiry_in_range_witness :
  0 <= 7200000000 <= Py.datetime_max.
Proof.
  apply (parse_time_expiry_in_range 0 "2h30m" 7200000000 "2 h.").
  reflexivity.
Defined.

(** ** The helpers *)

(** X3: [send_error] ends normally in every world.  It makes one call, the
    reply to the command with the failure marker around the text, and when
    the remote service answers that reply with an exception it logs the
    exception and nothing else happens. *)
Theorem send_error_replies_once (w : World) (message : Message)
    (error_text : string) (tr : list event) :
  let sent :=
    message_reply (chat_id message) (message_id message)
      ("<b>❌ " ++ error_text ++ "</b>") in
  let delivered := remote w tr sent in
  send_error message error_text w tr
  = (Ret tt,
     (tr ++ Called sent delivered
         :: match delivered with
            | Ret _ => []
            | Raise e =>
                [Logged ERROR ("Failed to send error message: " ++ exn_str e)]
            end)%list)
  /\ filter user_facing (snd (send_error message error_text w tr))
     = (filter user_facing tr ++ [Called sent delivered])%list.
Proof.
  intros sent delivered.
  assert (send_error message error_text w tr
          = (Ret tt,
             (tr ++ Called sent delivered
                 :: match delivered with
                    | Ret _ => []
                    | Raise e =>
                        [Logged ERROR
                           ("Failed to send error message: " ++ exn_str e)]
                    end)%list)) as E.
  { unfold_helpers; unfold_M. unfold error_text_markup.
    fold sent. fold delivered.
    destruct delivered as [[]|e]; tidy; reflexivity. }
  split; [exact E|]. rewrite E. cbn [snd]. rewrite filter_app.
  destruct delivered; reflexivity.
Qed.

(** X4: [send_invite] ends normally in every world.  It sends the link of
    the chat to the user, once, and then logs: that the invite was sent,
    when the remote service carried the call out, and the exception
    otherwise. *)
Theorem send_invite_never_raises (w : World) (user : Z) (tr : list event) :
  let sent := send_message user (CHAT_LINK w) in
  let delivered := remote w tr sent in
  send_invite user w tr
  = (Ret tt,
     (tr ++ [Called sent delivered;
             match delivered with
             | Ret _ => Logged INFO ("Invite sent to user " ++ Py.str_of_int user)
             | Raise e => Logged ERROR ("Failed to send invite: " ++ exn_str e)
             end])%list).
Proof.
  intros sent delivered. unfold_helpers; unfold_M. fold sent. fold delivered.
  destruct delivered as [[]|e]; tidy; reflexivity.
Qed.

(** ** The permission gate, on the other answers *)

(** X5: [check_admin] answers [True] exactly when the remote service
    answers both lookups, of the bot first and of the sender after it, with
    the role of an administrator or of the owner; and then the two lookups
    are all it does: it sends nothing. *)
Theorem check_admin_true_iff (w : World) (message : Message)
    (tr tr' : list event) :
  let bot_lookup := get_chat_member (chat_id message) (bot_id w) in
  let actor_lookup :=
    get_chat_member (chat_id message) (id (from_user message)) in
  check_admin message w tr = (Ret true, tr')
  <-> exists bot_status actor_status,
      remote w tr bot_lookup = Ret bot_status
      /\ in_admin_statuses bot_status = true
      /\ remote w (tr ++ [Called bot_lookup (Ret bot_status)]) actor_lookup
         = Ret actor_status
      /\ in_admin_statuses actor_status = true
      /\ tr' = (tr ++ [Called bot_lookup (Ret bot_status);
                       Called actor_lookup (Ret actor_status)])%list.
Proof.
  intros bot_lookup actor_lookup. split.
  - unfold_helpers; unfold_M. fold bot_lookup. fold actor_lookup.
    destruct (remote w tr bot_lookup) as [bot_status|e] eqn:Hbot;
      cbv beta iota zeta; [|discriminate].
    destruct (in_admin_statuses bot_status) eqn:Hbot_admin;
      cbn [negb]; cbv beta iota zeta.
    + destruct (remote w (tr ++ [Called bot_lookup (Ret bot_status)]) actor_lookup)
        as [actor_status|e] eqn:Hactor; cbv beta iota zeta; [|discriminate].
      destruct (in_admin_statuses actor_status) eqn:Hactor_admin;
        cbn [negb]; cbv beta iota zeta.
      * intros [= <-]. exists bot_status, actor_status.
        rewrite <- app_assoc. auto.
      * match goal with
        | |- context [remote w ?t ?c] => destruct (remote w t c)
        end; discriminate.
    + match goal with
      | |- context [remote w ?t ?c] => destruct (remote w t c)
      end; discriminate.
  - intros (bot_status & actor_status & Hbot & Hbot_admin & Hactor
            & Hactor_admin & ->).
    unfold_helpers; unfold_M. fold bot_lookup. fold actor_lookup.
    rewrite Hbot. cbv beta iota zeta. rewrite Hbot_admin.
    cbn [negb]. cbv beta iota zeta. rewrite Hactor. cbv beta iota zeta.
    rewrite Hactor_admin. cbn [negb]. rewrite <- app_assoc. reflexivity.
Qed.

Lemma check_admin_true_iff_witness :
  run (check_admin (command "/ban")) (world_of (roles_of [1; 7]) nothing_fails)
  = (Ret true,
     [Called (get_chat_member (-100) 1) (Ret ADMINISTRATOR);
      Called (get_chat_member (-100) 7) (Ret ADMINISTRATOR)]).
Proof.
  apply (check_admin_true_iff (world_of (roles_of [1; 7]) nothing_fails)
           (command "/ban") []).
  exists ADMINISTRATOR, ADMINISTRATOR. repeat split.
Defined.

(** X6: when the bot is an administrator and the remote service answers the
    lookup of the sender with a role that is not an administrator's,
    [check_admin] sends the reply that the sender is not an administrator
    and stops, with [False] when the reply was delivered and with the
    exception of the reply otherwise. *)
Theorem check_admin_denies_actor (w : World) (message : Message)
    (tr : list event) (bot_status actor_status : ChatMemberStatus) :
  let bot_lookup := get_chat_member (chat_id message) (bot_id w) in
  let actor_lookup :=
    get_chat_member (chat_id message) (id (from_user message)) in
  let denial :=
    message_reply (chat_id message) (message_id message) user_not_admin_text in
  let asked :=
    [Called bot_lookup (Ret bot_status); Called actor_lookup (Ret actor_status)] in
  remote w tr bot_lookup = Ret bot_status ->
  in_admin_statuses bot_status = true ->
  remote w (tr ++ [Called bot_lookup (Ret bot_status)]) actor_lookup
  = Ret actor_status ->
  in_admin_statuses actor_status = false ->
  let delivered := remote w (tr ++ asked) denial in
  check_admin message w tr
  = (match delivered with Ret _ => Ret false | Raise e => Raise e end,
     (tr ++ asked ++ [Called denial delivered])%list).
Proof.
  intros bot_lookup actor_lookup denial asked Hbot Hbot_admin Hactor
    Hactor_admin delivered.
  unfold_helpers; unfold_M. fold bot_lookup. fold actor_lookup.
  rewrite Hbot. cbv beta iota zeta. rewrite Hbot_admin.
  cbn [negb]. cbv beta iota zeta. rewrite Hactor. cbv beta iota zeta.
  rewrite Hactor_admin. cbn [negb]. cbv beta iota zeta.
  rewrite <- !app_assoc. cbn [app]. fold asked. fold denial. fold delivered.
  destruct delivered; rewrite <- ?app_assoc; reflexivity.
Qed.

Lemma check_admin_denies_actor_witness :
  run (check_admin (command "/ban")) (world_of (roles_of [1]) nothing_fails)
  = (Ret false,
     [Called (get_chat_member (-100) 1) (Ret ADMINISTRATOR);
      Called (get_chat_member (-100) 7) (Ret MEMBER);
      Called (message_reply (-100) 41 user_not_admin_text) (Ret tt)]).
Proof.
  apply (check_admin_denies_actor (world_of (roles_of [1]) nothing_fails)
           (command "/ban") [] ADMINISTRATOR MEMBER);
    reflexivity.
Defined.

(** ** The handlers, on every run *)

Lemma each_split_from_spec P pre tr :
  each_split_from P pre tr ->
  forall before ev after,
    tr = (before ++ ev :: after)%list -> P (pre ++ before)%list ev after.
Proof.
  intros H before. revert pre tr H.
  induction before as [|x before IH]; intros pre tr H ev after ->;
    cbn [each_split_from app] in H.
  - rewrite app_nil_r. tauto.
  - destruct H as [_ H].
    replace (pre ++ x :: before)%list with ((pre ++ [x]) ++ before)%list
      by (rewrite <- app_assoc; reflexivity).
    eapply IH; eauto.
Qed.

(** What the branches of a run say about the roles. *)
Ltac roles_known :=
  repeat match goal with
    | H : negb _ = false |- _ => apply negb_false_iff in H
    | H : negb _ = true |- _ => apply negb_true_iff in H
    end.

Ltac answered :=
  unfold answered_admin; eexists; (split; [cbn [In]; eauto 10|assumption]).

Ltac behind_gate :=
  let before := fresh "before" in
  let ev := fresh "ev" in
  let after := fresh "after" in
  let Htr := fresh "Htr" in
  unfold mutations_behind_gate; intros before ev after Htr; cbn [snd] in Htr;
  roles_known;
  pattern before, ev, after;
  lazymatch goal with
  | Htr : ?tr = _ |- ?P before ev after =>
      cbv beta;
      refine (each_split_from_spec P [] tr _ before ev after Htr)
  end;
  cbn [each_split_from app];
  repeat lazymatch goal with
    | |- True => exact I
    | |- (mutation _ = true -> _) /\ _ => split
    | |- mutation _ = true -> _ =>
        let Hm := fresh "Hm" in
        intros Hm;
        cbn [mutation calls name_of call_name_eqb orb] in Hm;
        first [discriminate Hm | split; answered]
    end.

Lemma func_kick_behind_gate w message :
  mutations_behind_gate w message (snd (run (func_kick message) w)).
Proof. runs; behind_gate. Qed.

Lemma func_unban_behind_gate w message :
  mutations_behind_gate w message (snd (run (func_unban message) w)).
Proof. runs; behind_gate. Qed.

Lemma func_mute_behind_gate w message :
  mutations_behind_gate w message (snd (run (func_mute message) w)).
Proof. runs; behind_gate. Qed.

Lemma func_unmute_behind_gate w message :
  mutations_behind_gate w message (snd (run (func_unmute message) w)).
Proof. runs; behind_gate. Qed.

(** X7: in every run of the four moderation handlers, in every world, a
    call that changes the membership state (ban, unban, restrict) is made
    only after the remote service has answered, in this same run, that the
    bot is an administrator of the chat and that the sender of the command
    is one.  Nothing is remembered from one command to the next. *)
Theorem mutations_only_behind_gate (w : World) (message : Message) :
  mutations_behind_gate w message (snd (run (func_kick message) w))
  /\ mutations_behind_gate w message (snd (run (func_unban message) w))
  /\ mutations_behind_gate w message (snd (run (func_mute message) w))
  /\ mutations_behind_gate w message (snd (run (func_unmute message) w)).
Proof.
  split; [|split; [|split]].
  - apply func_kick_behind_gate.
  - apply func_unban_behind_gate.
  - apply func_mute_behind_gate.
  - apply func_unmute_behind_gate.
Qed.

Lemma mutations_only_behind_gate_witness :
  let w := world_of (roles_of [1; 7]) nothing_fails in
  answered_admin (-100) 1
    [Called (get_chat_member (-100) 1) (Ret ADMINISTRATOR);
     Called (get_chat_member (-100) 7) (Ret ADMINISTRATOR)]
  /\ answered_admin (-100) 7
       [Called (get_chat_member (-100) 1) (Ret ADMINISTRATOR);
        Called (get_chat_member (-100) 7) (Ret ADMINISTRATOR)].
Proof.
  intros w.
  destruct (mutations_only_behind_gate w (command "/unban")) as (_ & H & _).
  apply (H _ (Called (unban_chat_member (-100) 9 true) (Ret tt))
           [Called (message_answer (-100) unban_done_text) (Ret tt);
            Called (send_message 9 "https://t.me/+invite") (Ret tt)]);
    reflexivity.
Defined.

Ltac the_only_mutation :=
  unfold only_mutation; cbn [snd app]; split;
  [cbn [filter mutation calls name_of call_name_eqb orb Datatypes.length]; lia
  |let ev := fresh "ev" in
   let Hin := fresh "Hin" in
   let Hm := fresh "Hm" in
   intros ev Hin Hm; cbn [In] in Hin;
   repeat match goal with
     | H : _ \/ _ |- _ => destruct H
     | H : False |- _ => destruct H
     end;
   subst; cbn [mutation calls name_of call_name_eqb orb] in Hm;
   first [discriminate Hm
         |eexists _, _; split; [eassumption|reflexivity]]].

Lemma func_kick_only_mutation w message :
  only_mutation message ban_chat_member (snd (run (func_kick message) w)).
Proof. runs; the_only_mutation. Qed.

Lemma func_unban_only_mutation w message :
  only_mutation message unban_call (snd (run (func_unban message) w)).
Proof. runs; the_only_mutation. Qed.

Lemma func_unmute_only_mutation w message :
  only_mutation message unmute_call (snd (run (func_unmute message) w)).
Proof. runs; the_only_mutation. Qed.

(** X8: in every run, a handler changes the membership of nobody but the
    user that the command replies to, in the chat of the command, and at
    most once: the ban handler makes at most one ban call; the unban
    handler at most one unban call, always with [only_if_banned]; the
    unmute handler at most one restrict call, that allows messages again
    and has no expiry; and no handler makes a mutation of another kind. *)
Theorem handlers_mutate_only_the_target (w : World) (message : Message) :
  only_mutation message ban_chat_member (snd (run (func_kick message) w))
  /\ only_mutation message unban_call (snd (run (func_unban message) w))
  /\ only_mutation message unmute_call (snd (run (func_unmute message) w)).
Proof.
  split; [|split].
  - apply func_kick_only_mutation.
  - apply func_unban_only_mutation.
  - apply func_unmute_only_mutation.
Qed.

Lemma handlers_mutate_only_the_target_witness :
  let w := world_of (roles_of [1; 7]) nothing_fails in
  exists reply_message answered,
    reply_to_message (command "/ban") = Some reply_message
    /\ Called (ban_chat_member (-100) 9) (Ret tt)
       = Called (ban_chat_member (chat_id (command "/ban"))
                                 (id (from_user reply_message))) answered.
Proof.
  intros w.
  destruct (handlers_mutate_only_the_target w (command "/ban")) as ((_ & H) & _).
  apply H; [|reflexivity].
  cbn. do 4 right. left. reflexivity.
Defined.

(** ** The handlers, on the runs past the gate *)

Ltac run_known :=
  unfold_commands; unfold_helpers; unfold_M;
  repeat match goal with
    | H : reply_to_message ?m = _ |- context [reply_to_message ?m] => rewrite H
    end;
  explore_known.

(** X9: a ban, an unban or an unmute command that replies to no message,
    sent by an administrator while the bot is an administrator, changes
    nothing: after the two lookups of the gate the handler replies that the
    command must be a reply to a message of the user, logs the exception
    when that reply cannot be sent, and ends normally. *)
Theorem missing_target_is_reported (w : World) (message : Message)
    (bot_status actor_status : ChatMemberStatus) :
  reply_to_message message = None ->
  has_role w (chat_id message) (bot_id w) bot_status ->
  in_admin_statuses bot_status = true ->
  has_role w (chat_id message) (id (from_user message)) actor_status ->
  in_admin_statuses actor_status = true ->
  let gate :=
    [Called (get_chat_member (chat_id message) (bot_id w)) (Ret bot_status);
     Called (get_chat_member (chat_id message) (id (from_user message)))
            (Ret actor_status)] in
  let refusal :=
    message_reply (chat_id message) (message_id message)
      (error_text_markup need_reply_text) in
  (exists delivered,
      run (func_kick message) w
      = (Ret tt,
         (Logged INFO "Ban command received" :: gate
          ++ Called refusal delivered :: send_error_log delivered)%list))
  /\ (exists delivered,
         run (func_unban message) w
         = (Ret tt,
            (gate ++ Called refusal delivered :: send_error_log delivered)%list))
  /\ (exists delivered,
         run (func_unmute message) w
         = (Ret tt,
            (gate ++ Called refusal delivered :: send_error_log delivered)%list)).
Proof.
  intros Hreply Hbot Hbot_admin Hactor Hactor_admin gate refusal.
  split; [|split];
    run_known;
    match goal with
    | H : remote _ _ (message_reply _ _ _) = ?delivered |- _ =>
        exists delivered
    end;
    tidy; reflexivity.
Qed.

Lemma missing_target_is_reported_witness :
  run (func_unmute (command_alone "/unmute"))
      (world_of (roles_of [1; 7]) nothing_fails)
  = (Ret tt,
     [Called (get_chat_member (-100) 1) (Ret ADMINISTRATOR);
      Called (get_chat_member (-100) 7) (Ret ADMINISTRATOR);
      Called (message_reply (-100) 41 (error_text_markup need_reply_text))
             (Ret tt)]).
Proof.
  destruct (missing_target_is_reported
              (world_of (roles_of [1; 7]) nothing_fails)
              (command_alone "/unmute") ADMINISTRATOR ADMINISTRATOR
              eq_refl (fun tr => eq_refl) eq_refl (fun tr => eq_refl) eq_refl)
    as (_ & _ & delivered & E).
  rewrite E. destruct delivered as [[]|e].
  - reflexivity.
  - discriminate E.
Defined.

(** X10: a ban that passes the gate, replies to a user who is not an
    administrator and is carried out by the remote service: after the
    three lookups the handler bans the user, without expiry, logs it, and
    answers in the chat with the names of the user and of the moderator;
    the result of the handler is normal whether or not that answer could
    be sent, and a failure reply follows when it could not. *)
Theorem ban_carried_out (w : World) (message reply_message : Message)
    (bot_status actor_status target_status : ChatMemberStatus) :
  reply_to_message message = Some reply_message ->
  has_role w (chat_id message) (bot_id w) bot_status ->
  in_admin_statuses bot_status = true ->
  has_role w (chat_id message) (id (from_user message)) actor_status ->
  in_admin_statuses actor_status = true ->
  has_role w (chat_id message) (id (from_user reply_message)) target_status ->
  in_admin_statuses target_status = false ->
  (forall tr,
      remote w tr (ban_chat_member (chat_id message) (id (from_user reply_message)))
      = Ret tt) ->
  let before_answer :=
    [Logged INFO "Ban command received";
     Called (get_chat_member (chat_id message) (bot_id w)) (Ret bot_status);
     Called (get_chat_member (chat_id message) (id (from_user message)))
            (Ret actor_status);
     Called (get_chat_member (chat_id message) (id (from_user reply_message)))
            (Ret target_status);
     Called (ban_chat_member (chat_id message) (id (from_user reply_message)))
            (Ret tt);
     Logged INFO ("User " ++ Py.str_of_int (id (from_user reply_message))
                  ++ " banned")] in
  let confirmation :=
    message_answer (chat_id message) (ban_message message reply_message) in
  let confirmed := remote w before_answer confirmation in
  exists rest,
    run (func_kick message) w
    = (Ret tt, (before_answer ++ Called confirmation confirmed :: rest)%list)
    /\ match confirmed with
       | Ret _ => rest = [Logged INFO "Ban message sent successfully"]
       | Raise e =>
           exists failure_reply_event rest',
             rest = failure_reply_event :: rest'
             /\ failure_reply message e failure_reply_event
       end.
Proof.
  intros Hreply Hbot Hbot_admin Hactor Hactor_admin Htarget Htarget_admin Hban
    before_answer confirmation confirmed.
  unfold_commands; unfold_helpers; unfold_M. rewrite Hreply.
  repeat first [progress cbv beta iota zeta | progress cbn [negb app]
               | known_answer | known_role].
  fold before_answer. fold confirmation. fold confirmed.
  destruct confirmed as [[]|e]; cbv beta iota zeta.
  - eexists. split; [tidy; reflexivity|reflexivity].
  - destruct (exn_class_eqb (exn_kind e) TelegramBadRequest);
      cbv beta iota zeta;
      match goal with
      | |- context [remote w ?t ?c] => destruct (remote w t c) as [[]|e']
      end;
      cbv beta iota zeta;
      (eexists; split; [tidy; reflexivity|]);
      eexists _, _; (split; [reflexivity|]);
      eexists _, _; reflexivity.
Qed.

Lemma ban_carried_out_witness :
  run (func_kick (command "/ban")) (world_of (roles_of [1; 7]) nothing_fails)
  = (Ret tt,
     [Logged INFO "Ban command received";
      Called (get_chat_member (-100) 1) (Ret ADMINISTRATOR);
      Called (get_chat_member (-100) 7) (Ret ADMINISTRATOR);
      Called (get_chat_member (-100) 9) (Ret MEMBER);
      Called (ban_chat_member (-100) 9) (Ret tt);
      Logged INFO "User 9 banned";
      Called (message_answer (-100) (ban_message (command "/ban") replied))
             (Ret tt);
      Logged INFO "Ban message sent successfully"]).
Proof.
  destruct (ban_carried_out (world_of (roles_of [1; 7]) nothing_fails)
              (command "/ban") replied ADMINISTRATOR ADMINISTRATOR MEMBER
              eq_refl (fun tr => eq_refl) eq_refl (fun tr => eq_refl) eq_refl
              (fun tr => eq_refl) eq_refl (fun tr => eq_refl))
    as (rest & E & Hrest).
  cbn in Hrest. subst rest. exact E.
Defined.

(** X11: an unban that passes the gate and is carried out by the remote
    service: the handler asks for the role of nobody but the bot and the
    sender, lifts the ban only if there is one, answers in the chat that
    the ban was lifted and then sends the link of the chat to the user in
    private. *)
Theorem unban_carried_out (w : World) (message reply_message : Message)
    (bot_status actor_status : ChatMemberStatus) :
  reply_to_message message = Some reply_message ->
  has_role w (chat_id message) (bot_id w) bot_status ->
  in_admin_statuses bot_status = true ->
  has_role w (chat_id message) (id (from_user message)) actor_status ->
  in_admin_statuses actor_status = true ->
  (forall tr,
      remote w tr (unban_chat_member (chat_id message)
                     (id (from_user reply_message)) true) = Ret tt) ->
  (forall tr, remote w tr (message_answer (chat_id message) unban_done_text)
              = Ret tt) ->
  (forall tr, remote w tr (send_message (id (from_user reply_message))
                             (CHAT_LINK w)) = Ret tt) ->
  run (func_unban message) w
  = (Ret tt,
     [Called (get_chat_member (chat_id message) (bot_id w)) (Ret bot_status);
      Called (get_chat_member (chat_id message) (id (from_user message)))
             (Ret actor_status);
      Called (unban_chat_member (chat_id message)
                (id (from_user reply_message)) true) (Ret tt);
      Called (message_answer (chat_id message) unban_done_text) (Ret tt);
      Called (send_message (id (from_user reply_message)) (CHAT_LINK w))
             (Ret tt)]).
Proof.
  intros Hreply Hbot Hbot_admin Hactor Hactor_admin Hunban Hanswer Hinvite.
  run_known; tidy; reflexivity.
Qed.

Lemma unban_carried_out_witness :
  run (func_unban (command "/unban"))
      (world_of (roles_of [1; 7]) nothing_fails)
  = (Ret tt,
     [Called (get_chat_member (-100) 1) (Ret ADMINISTRATOR);
      Called (get_chat_member (-100) 7) (Ret ADMINISTRATOR);
      Called (unban_chat_member (-100) 9 true) (Ret tt);
      Called (message_answer (-100) unban_done_text) (Ret tt);
      Called (send_message 9 "https://t.me/+invite") (Ret tt)]).
Proof.
  apply (unban_carried_out (world_of (roles_of [1; 7]) nothing_fails)
           (command "/unban") replied ADMINISTRATOR ADMINISTRATOR);
    try reflexivity; intros tr; reflexivity.
Defined.

(** X12: an unmute that passes the gate: the handler asks for the role of
    nobody but the bot and the sender, so the user may be anyone, an
    administrator too.  It makes the restrict call that allows messages
    again, without expiry.  When the call is carried out it answers in the
    chat, and the result of the handler is the result of that answer; when
    the call fails, its exception is the result of the handler and nothing
    is sent. *)
Theorem unmute_past_the_gate (w : World) (message reply_message : Message)
    (bot_status actor_status : ChatMemberStatus) :
  reply_to_message message = Some reply_message ->
  has_role w (chat_id message) (bot_id w) bot_status ->
  in_admin_statuses bot_status = true ->
  has_role w (chat_id message) (id (from_user message)) actor_status ->
  in_admin_statuses actor_status = true ->
  let gate :=
    [Called (get_chat_member (chat_id message) (bot_id w)) (Ret bot_status);
     Called (get_chat_member (chat_id message) (id (from_user message)))
            (Ret actor_status)] in
  let lifting := unmute_call (chat_id message) (id (from_user reply_message)) in
  let confirmation :=
    message_answer (chat_id message)
      ("🎉 Все ограничения с пользователя <b>"
       ++ mention_html (from_user reply_message)
            (first_name (from_user reply_message))
       ++ "</b> были сняты!") in
  match remote w gate lifting with
  | Ret _ =>
      run (func_unmute message) w
      = (remote w (gate ++ [Called lifting (Ret tt)]) confirmation,
         (gate ++ [Called lifting (Ret tt);
                   Called confirmation
                     (remote w (gate ++ [Called lifting (Ret tt)]) confirmation)])%list)
  | Raise e =>
      run (func_unmute message) w
      = (Raise e, (gate ++ [Called lifting (Raise e)])%list)
  end.
Proof.
  intros Hreply Hbot Hbot_admin Hactor Hactor_admin gate lifting confirmation.
  unfold_commands; unfold_helpers; unfold_M. rewrite Hreply.
  repeat first [progress cbv beta iota zeta | progress cbn [negb app]
               | known_answer | known_role].
  subst gate lifting confirmation. unfold unmute_call. cbn [app].
  match goal with
  | |- context [remote w ?t (restrict_chat_member ?a ?b ?c ?d)] =>
      destruct (remote w t (restrict_chat_member a b c d)) as [[]|e]
  end; cbv beta iota zeta; [|reflexivity].
  match goal with
  | |- context [remote w ?t (message_answer ?a ?b)] =>
      destruct (remote w t (message_answer a b)) as [[]|e]
  end; reflexivity.
Qed.

Lemma unmute_past_the_gate_witness :
  run (func_unmute (command "/unmute"))
      (world_of (roles_of [1; 7; 9]) nothing_fails)
  = (Ret tt,
     [Called (get_chat_member (-100) 1) (Ret ADMINISTRATOR);
      Called (get_chat_member (-100) 7) (Ret ADMINISTRATOR);
      Called (unmute_call (-100) 9) (Ret tt);
      Called (message_answer (-100)
                ("🎉 Все ограничения с пользователя <b><a href="
                 ++ dquote ++ "tg://user?id=9" ++ dquote
                 ++ ">Tar</a></b> были сняты!"))
             (Ret tt)]).
Proof.
  apply (unmute_past_the_gate (world_of (roles_of [1; 7; 9]) nothing_fails)
           (command "/unmute") replied ADMINISTRATOR ADMINISTRATOR
           eq_refl (fun tr => eq_refl) eq_refl (fun tr => eq_refl) eq_refl).
Defined.

(** ** Mute: the arguments *)

Lemma lstrip_head s c rest :
  Py.lstrip s = String c rest -> Py.isspace c = false.
Proof.
  induction s as [|x s IH]; cbn [Py.lstrip]; [discriminate|].
  destruct (Py.isspace x) eqn:Hx; auto.
  intros [= -> _]. exact Hx.
Qed.

Lemma rstrip_keeps_head c s :
  Py.isspace c = false -> Py.rstrip (String c s) <> EmptyString.
Proof.
  intros Hc. cbn [Py.rstrip]. destruct (Py.rstrip s); [rewrite Hc|]; discriminate.
Qed.

(** The second item of [text.split(maxsplit=1)], when there is one, is not
    empty once stripped. *)
Lemma split_second_truthy s :
  (Z.of_nat (List.length (Py.split_maxsplit1 s)) <? 2) = false ->
  Py.truthy (Py.strip (nth 1 (Py.split_maxsplit1 s) "")) = true.
Proof.
  unfold Py.split_maxsplit1.
  destruct (Py.lstrip s) as [|x s1]; [discriminate|].
  destruct (Py.span (fun c => negb (Py.isspace c)) (String x s1)) as [word rest].
  destruct (Py.lstrip rest) as [|c tail] eqn:E; [discriminate|].
  intros _. cbn [nth]. unfold Py.strip.
  pose proof (lstrip_head _ _ _ E) as Hc.
  cbn [Py.lstrip]. rewrite Hc.
  pose proof (rstrip_keeps_head c tail Hc).
  destruct (Py.rstrip (String c tail)); [congruence|reflexivity].
Qed.

(** X13: the mute handler never sends the reply that the arguments of the
    command are empty.  The second item of the split of the text, when
    there is one, begins with a character that is not a space, so it is
    not empty after [strip], and the test that guards that reply never
    succeeds. *)
Theorem func_mute_never_says_empty_arguments (w : World) (message : Message) :
  existsb (sends (error_text_markup empty_arguments_text))
          (snd (run (func_mute message) w)) = false.
Proof.
  runs;
    first
      [reflexivity
      |exfalso;
       match goal with
       | H : (Z.of_nat (List.length (Py.split_maxsplit1 ?s)) <? 2) = false,
         H' : negb (Py.truthy _) = true |- _ =>
           rewrite (split_second_truthy s H) in H'; discriminate H'
       end].
Qed.

(** X14: a mute command of ASCII characters without arguments, sent by an
    administrator while the bot is an administrator: after the gate the
    handler logs the split of the text and replies that
    the arguments of the command are missing, and ends normally.  It does
    so before it looks at the message that the command replies to, so the
    reply is the same with and without a target, and the role of the target
    is not asked for. *)
Theorem func_mute_missing_arguments (w : World) (message : Message)
    (bot_status actor_status : ChatMemberStatus) :
  Py.isascii (text message) = true ->
  (List.length (Py.split_maxsplit1 (text message)) < 2)%nat ->
  has_role w (chat_id message) (bot_id w) bot_status ->
  in_admin_statuses bot_status = true ->
  has_role w (chat_id message) (id (from_user message)) actor_status ->
  in_admin_statuses actor_status = true ->
  let before :=
    [Logged INFO "Mute command received";
     Called (get_chat_member (chat_id message) (bot_id w)) (Ret bot_status);
     Called (get_chat_member (chat_id message) (id (from_user message)))
            (Ret actor_status);
     Logged INFO ("Command text: "
                  ++ Py.repr_list (Py.split_maxsplit1 (text message)))] in
  let refusal :=
    message_reply (chat_id message) (message_id message)
      (error_text_markup missing_arguments_text) in
  let delivered := remote w before refusal in
  run (func_mute message) w
  = (Ret tt, (before ++ Called refusal delivered :: send_error_log delivered)%list).
Proof.
  intros _ Hlen Hbot Hbot_admin Hactor Hactor_admin before refusal delivered.
  assert ((Z.of_nat (List.length (Py.split_maxsplit1 (text message))) <? 2) = true)
    as Hshort by (apply Z.ltb_lt; lia).
  unfold_commands; unfold_helpers; unfold_M.
  repeat first [progress cbv beta iota zeta | progress cbn [negb app]
               | known_answer | known_role | rewrite Hshort].
  fold missing_arguments_text. fold before. fold refusal. fold delivered.
  destruct delivered as [[]|e]; tidy; reflexivity.
Qed.

Lemma func_mute_missing_arguments_witness :
  let w := world_of (roles_of [1; 7]) nothing_fails in
  snd (run (func_mute (command "/mute  ")) w)
  = [Logged INFO "Mute command received";
     Called (get_chat_member (-100) 1) (Ret ADMINISTRATOR);
     Called (get_chat_member (-100) 7) (Ret ADMINISTRATOR);
     Logged INFO "Command text: ['/mute']";
     Called (message_reply (-100) 41 (error_text_markup missing_arguments_text))
            (Ret tt)].
Proof.
  intros w.
  rewrite (func_mute_missing_arguments w (command "/mute  ")
             ADMINISTRATOR ADMINISTRATOR);
    [reflexivity|reflexivity|cbn; lia|intros tr; reflexivity|reflexivity
    |intros tr; reflexivity|reflexivity].
Defined.

(** ** Mute: from the split of the arguments on *)

Lemma contains_space_app token rest :
  Py.contains_space (token ++ String Py.space rest) = true.
Proof.
  induction token as [|c token IH]; cbn [append Py.contains_space].
  - reflexivity.
  - rewrite IH. apply orb_true_r.
Qed.

Lemma no_space_forall token :
  Py.contains_space token = false ->
  forall_chars (fun c => negb (Ascii.eqb c Py.space)) token = true.
Proof.
  induction token as [|c token IH]; cbn [Py.contains_space forall_chars]; auto.
  intros H. apply orb_false_iff in H as [Hc H]. rewrite Hc, IH; auto.
Qed.

(** [args.split(' ', 1)] cuts at the first space. *)
Lemma split_space1_app token rest :
  Py.contains_space token = false ->
  Py.split_space1 (token ++ String Py.space rest) = (token, rest).
Proof.
  intros H. unfold Py.split_space1.
  rewrite span_app; auto using no_space_forall.
Qed.








(** X16: the rest of the mute handler on a duration of ASCII characters
    that the parser reports as not parseable, with or without a reason:
    the stage replies
    that the time could not be parsed, logs the exception when the reply
    cannot be sent, ends normally, and makes no restrict call. *)
Theorem mute_stage_unparseable (w : World) (message reply_message : Message)
    (user : Z) (token : string) (reason : option string) (tr : list event) :
  Py.isascii token = true ->
  Py.contains_space token = false ->
  parse_time (utcnow w tr) token = Ret None ->
  let args :=
    match reason with
    | Some r => token ++ String Py.space r
    | None => token
    end in
  let report := parse_report token None reason in
  let refusal :=
    message_reply (chat_id message) (message_id message)
      (error_text_markup unparseable_text) in
  let delivered := remote w (tr ++ report) refusal in
  mute_parse_and_execute message reply_message user args w tr
  = (Ret tt,
     (tr ++ report ++ Called refusal delivered :: send_error_log delivered)%list).
Proof.
  intros _ Hspace Hparse args report refusal delivered.
  unfold mute_parse_and_execute, args.
  assert (forall time_str r,
             time_str = token -> r = reason ->
             (let '(time_str, reason) := (time_str, r) in
              utc <- now ;;
              parsed <- lift (parse_time utc time_str) ;;
              print ("Parsed time string: " ++ time_str) ;;
              print ("Parsed until_date: "
                     ++ str_of_option Py.str_of_datetime (option_map fst parsed)) ;;
              print ("Parsed duration_str: "
                     ++ str_of_option (fun s => s) (option_map snd parsed)) ;;
              print ("Parsed reason: " ++ str_of_option (fun s => s) reason) ;;
              match parsed with
              | None => send_error message unparseable_text
              | Some (until_date, duration_str) =>
                  mute_execute message reply_message user until_date
                    duration_str reason
              end) w tr
             = (Ret tt,
                (tr ++ report ++ Called refusal delivered
                    :: send_error_log delivered)%list)) as Hrun.
  { intros time_str r -> ->. unfold_helpers; unfold_M. rewrite Hparse.
    cbv beta iota zeta. cbn [option_map str_of_option].
    rewrite <- !app_assoc. cbn [app].
    change (tr ++ [Printed ("Parsed time string: " ++ token);
                   Printed ("Parsed until_date: " ++ "None");
                   Printed ("Parsed duration_str: " ++ "None");
                   Printed ("Parsed reason: " ++ str_of_option (fun s => s) reason)])%list
      with (tr ++ report)%list.
    fold refusal. fold delivered.
    destruct delivered as [[]|e]; rewrite <- ?app_assoc; reflexivity. }
  destruct reason as [r|].
  - rewrite contains_space_app, split_space1_app by auto.
    now apply Hrun.
  - rewrite Hspace. now apply Hrun.
Qed.

Lemma mute_stage_unparseable_witness :
  let w := world_of (roles_of [1; 7]) nothing_fails in
  mute_parse_and_execute (command "/mute 2w spam") replied 9 "2w spam" w []
  = (Ret tt,
     [Printed "Parsed time string: 2w";
      Printed "Parsed until_date: None";
      Printed "Parsed duration_str: None";
      Printed "Parsed reason: spam";
      Called (message_reply (-100) 41 (error_text_markup unparseable_text))
             (Ret tt)]).
Proof.
  intros w.
  apply (mute_stage_unparseable w (command "/mute 2w spam") replied 9 "2w"
           (Some "spam") []); reflexivity.
Defined.

(** X17: the execution stage of the mute handler never ends with a
    bad-request error, whichever of its two calls raises it.  When the
    restrict call is carried out and the confirmation is answered with a
    bad request, the stage ends normally without any other call: the user
    is restricted and nothing is said. *)
Theorem mute_execute_swallows_bad_requests (w : World)
    (message reply_message : Message) (user : Z) (until_date : Py.datetime)
    (duration_str : string) (reason : option string) (tr : list event) :
  let restrict := mute_call (chat_id message) user until_date in
  let confirmation :=
    message_answer (chat_id message)
      (mute_message reply_message user duration_str reason) in
  let stage :=
    mute_execute message reply_message user until_date duration_str reason w tr in
  (forall e,
      fst stage = Raise e ->
      exn_class_eqb (exn_kind e) TelegramBadRequest = false)
  /\ (forall e,
         remote w tr restrict = Ret tt ->
         remote w (tr ++ [Called restrict (Ret tt)]) confirmation = Raise e ->
         exn_kind e = TelegramBadRequest ->
         stage
         = (Ret tt,
            (tr ++ [Called restrict (Ret tt);
                    Called confirmation (Raise e)])%list)).
Proof.
  intros restrict confirmation stage. unfold stage. split.
  - intros e. unfold_commands; unfold_M.
    fold (mute_call (chat_id message) user until_date). fold restrict.
    destruct (remote w tr restrict) as [[]|e1]; cbv beta iota zeta.
    + fold confirmation.
      destruct (remote w (tr ++ [Called restrict (Ret tt)]) confirmation)
        as [[]|e2]; cbv beta iota zeta; [discriminate|].
      destruct (exn_class_eqb (exn_kind e2) TelegramBadRequest) eqn:K;
        [discriminate|].
      intros [= <-]. exact K.
    + destruct (exn_class_eqb (exn_kind e1) TelegramBadRequest) eqn:K;
        [discriminate|].
      intros [= <-]. exact K.
  - intros e Hrestrict Hconfirmation Hkind. unfold_commands; unfold_M.
    fold (mute_call (chat_id message) user until_date). fold restrict.
    rewrite Hrestrict. cbv beta iota zeta. fold confirmation.
    rewrite Hconfirmation. cbv beta iota zeta. rewrite Hkind.
    rewrite <- app_assoc. reflexivity.
Qed.

Lemma mute_execute_swallows_bad_requests_witness :
  let w := world_of (roles_of [1; 7]) (failing MessageAnswer bad_request) in
  mute_execute (command "/mute 2h spam") replied 9 7200000000 "2 h."
    (Some "spam") w []
  = (Ret tt,
     [Called (mute_call (-100) 9 7200000000) (Ret tt);
      Called (message_answer (-100)
                (mute_message replied 9 "2 h." (Some "spam")))
             (Raise bad_request)]).
Proof.
  intros w.
  destruct (mute_execute_swallows_bad_requests w (command "/mute 2h spam")
              replied 9 7200000000 "2 h." (Some "spam") []) as [_ H].
  apply (H bad_request); reflexivity.
Defined.

(** ** The information command *)

(** X18: what the information command does, in every world.  It sends the
    information to the private chat of the sender first.  When that is
    carried out it replies in the group that the information was sent.
    When the private message or that reply raises, it logs the exception
    and replies in the group that the information could not be sent, also
    when it is the reply that failed and the information did arrive; the
    result of the handler is then the result of this last reply, so an
    exception of it leaves the handler. *)
Theorem info_reports_delivery (w : World) (message : Message) (tr : list event) :
  let private_send := send_message (id (from_user message)) info_text in
  let told_sent :=
    message_reply (chat_id message) (message_id message) info_sent_text in
  let told_failed :=
    message_reply (chat_id message) (message_id message) info_failed_text in
  let failed_with (e : exn) (done : list event) :=
    let logged :=
      (done ++ [Logged ERROR ("Failed to send message: " ++ exn_str e)])%list in
    (remote w logged told_failed,
     (logged ++ [Called told_failed (remote w logged told_failed)])%list) in
  info message w tr
  = match remote w tr private_send with
    | Raise e => failed_with e (tr ++ [Called private_send (Raise e)])%list
    | Ret _ =>
        let sent := (tr ++ [Called private_send (Ret tt)])%list in
        match remote w sent told_sent with
        | Ret _ => (Ret tt, (sent ++ [Called told_sent (Ret tt)])%list)
        | Raise e => failed_with e (sent ++ [Called told_sent (Raise e)])%list
        end
    end.
Proof.
  intros private_send told_sent told_failed failed_with.
  unfold info, failed_with. unfold_M.
  fold private_send. fold told_sent. fold told_failed.
  destruct (remote w tr private_send) as [[]|e]; cbv beta iota zeta.
  - destruct (remote w (tr ++ [Called private_send (Ret tt)]) told_sent)
      as [[]|e]; cbv beta iota zeta; [reflexivity|].
    match goal with
    | |- context [remote w ?t told_failed] =>
        destruct (remote w t told_failed) as [[]|e']
    end; reflexivity.
  - match goal with
    | |- context [remote w ?t told_failed] =>
        destruct (remote w t told_failed) as [[]|e']
    end; reflexivity.
Qed.

Example info_to_a_user_who_blocked_the_bot :
  run (info (command "/info")) (world_of (roles_of []) (failing SendMessage forbidden))
  = (Ret tt,
     [Called (send_message 7 info_text) (Raise forbidden);
      Logged ERROR
        "Failed to send message: Forbidden: bot can't initiate conversation with a user";
      Called (message_reply (-100) 41 info_failed_text) (Ret tt)]).
Proof. reflexivity. Qed.

(** ** The entry point *)

(** X19: [main], up to the start of the polling, in every world.  When the
    first call to delete the webhook raises, [main] ends there, with the
    [AttributeError] that leaves the retrier: there is no second call and
    the polling never starts.  When it is carried out, the webhook is
    deleted once more, outside of any [try], and the answer to this second
    call is the result: polling starts only if it is carried out too. *)
Theorem main_until_polling_runs (w : World) :
  run main_until_polling w
  = match remote w [] (delete_webhook true) with
    | Raise e =>
        (Raise no_ClientConnectorError, [Called (delete_webhook true) (Raise e)])
    | Ret _ =>
        let first := [Called (delete_webhook true) (Ret tt); webhook_deleted] in
        let answered := remote w first (delete_webhook true) in
        (answered, (first ++ [Called (delete_webhook true) answered])%list)
    end.
Proof.
  pose proof (delete_webhook_with_retry_runs w 3 5) as Hretry.
  change (3 <=? 0) with false in Hretry. cbv beta iota in Hretry.
  unfold run in *. unfold main_until_polling. unfold_M.
  rewrite Hretry.
  destruct (remote w [] (delete_webhook true)) as [[]|e]; cbv beta iota zeta.
  - cbn [app].
    destruct (remote w [Called (delete_webhook true) (Ret tt); webhook_deleted]
                (delete_webhook true)) as [[]|e]; reflexivity.
  - reflexivity.
Qed.

Example main_when_the_service_is_down :
  let result :=
    run main_until_polling
        (world_of (roles_of []) (failing DeleteWebhook network_error)) in
  fst result = Raise no_ClientConnectorError
  /\ attempts (snd result) = 1%nat
  /\ pauses (snd result) = [].
Proof. repeat split. Qed.

(** ** The retrier never retries *)

(** X20: in every run of the retrier, in every world and for every number
    of attempts and delay, the webhook is asked to be deleted at most once
    and there is no pause; the terminal failure line is printed only when
    the number of attempts is zero or less; and an exception that leaves
    the retrier is the [AttributeError] of its first [except] clause. *)
Theorem retrier_never_retries (w : World) (retries delay : Z) :
  let result := run (delete_webhook_with_retry retries delay) w in
  (attempts (snd result) <= 1)%nat
  /\ pauses (snd result) = []
  /\ (In webhook_given_up (snd result) -> retries <= 0)
  /\ (forall e, fst result = Raise e -> e = no_ClientConnectorError).
Proof.
  cbv zeta. rewrite delete_webhook_with_retry_runs.
  destruct (retries <=? 0) eqn:H.
  - apply Z.leb_le in H. cbn [fst snd].
    split; [unfold attempts, count_calls; cbn; lia|].
    split; [reflexivity|].
    split; [intros _; exact H|intros e' E; discriminate E].
  - destruct (remote w [] (delete_webhook true)) as [[]|e0];
      (split; [unfold attempts, count_calls; cbn; lia|]);
      (split; [reflexivity|]); split.
    + cbn. intros [H'|[H'|[]]]; discriminate H'.
    + discriminate.
    + cbn. intros [H'|[]]; discriminate H'.
    + cbn. intros e' [= <-]. reflexivity.
Qed.

Lemma retrier_never_retries_witness :
  (0 < 3)%Z
  /\ ~ In webhook_given_up
        (snd (run (delete_webhook_with_retry 3 5)
                  (world_of (roles_of []) (failing DeleteWebhook network_error)))).
Proof.
  split; [lia|].
  intros Hin.
  destruct (retrier_never_retries
              (world_of (roles_of []) (failing DeleteWebhook network_error)) 3 5)
    as (_ & _ & H & _).
  specialize (H Hin). lia.
Defined.

(** ** Mute: how far the handler gets *)

(** X21: no run of the mute handler, in any world, gets to the parser: the
    handler never prints the report of the parser, never makes a restrict
    call and never sends a confirmation. *)
Theorem func_mute_never_reaches_the_parser (w : World) (message : Message) :
  let result := run (func_mute message) w in
  printed (snd result) = []
  /\ count_calls RestrictChatMember (snd result) = 0%nat
  /\ count_calls MessageAnswer (snd result) = 0%nat.
Proof.
  cbv zeta. runs; repeat split.
Qed.

(** X22: a mute command of ASCII characters with arguments, whatever they
    are, sent by an
    administrator in reply to a user who is not one, while the bot is an
    administrator: the handler logs the arguments, asks for the role of the
    user, and ends with [AttributeError]; nothing is sent to anybody. *)
Theorem func_mute_raises_on_any_arguments (w : World)
    (message reply_message : Message)
    (bot_status actor_status target_status : ChatMemberStatus) :
  Py.isascii (text message) = true ->
  (2 <= List.length (Py.split_maxsplit1 (text message)))%nat ->
  reply_to_message message = Some reply_message ->
  has_role w (chat_id message) (bot_id w) bot_status ->
  in_admin_statuses bot_status = true ->
  has_role w (chat_id message) (id (from_user message)) actor_status ->
  in_admin_statuses actor_status = true ->
  has_role w (chat_id message) (id (from_user reply_message)) target_status ->
  in_admin_statuses target_status = false ->
  let command_text := Py.split_maxsplit1 (text message) in
  run (func_mute message) w
  = (Raise no_args_attribute,
     [Logged INFO "Mute command received";
      Called (get_chat_member (chat_id message) (bot_id w)) (Ret bot_status);
      Called (get_chat_member (chat_id message) (id (from_user message)))
             (Ret actor_status);
      Logged INFO ("Command text: " ++ Py.repr_list command_text);
      Logged INFO ("Arguments: '" ++ Py.strip (nth 1 command_text "") ++ "'");
      Called (get_chat_member (chat_id message) (id (from_user reply_message)))
             (Ret target_status)])
  /\ filter user_facing (snd (run (func_mute message) w)) = [].
Proof.
  intros _ Hlen Hreply Hbot Hbot_admin Hactor Hactor_admin Htarget Htarget_admin
    command_text.
  assert ((Z.of_nat (List.length (Py.split_maxsplit1 (text message))) <? 2) = false)
    as Hlong by (apply Z.ltb_ge; lia).
  pose proof (split_second_truthy _ Hlong) as Hargs.
  assert (run (func_mute message) w
          = (Raise no_args_attribute,
             [Logged INFO "Mute command received";
              Called (get_chat_member (chat_id message) (bot_id w))
                     (Ret bot_status);
              Called (get_chat_member (chat_id message) (id (from_user message)))
                     (Ret actor_status);
              Logged INFO ("Command text: " ++ Py.repr_list command_text);
              Logged INFO ("Arguments: '" ++ Py.strip (nth 1 command_text "")
                           ++ "'");
              Called (get_chat_member (chat_id message)
                                      (id (from_user reply_message)))
                     (Ret target_status)])) as E.
  { unfold_commands; unfold_helpers; unfold_M. rewrite Hreply.
    repeat first [progress cbv beta iota zeta | progress cbn [negb app]
                 | known_answer | known_role
                 | rewrite Hlong | rewrite Hargs].
    reflexivity. }
  split; [exact E|]. rewrite E. reflexivity.
Qed.

Lemma func_mute_raises_on_any_arguments_witness :
  fst (run (func_mute (command "/mute forever and ever"))
           (world_of (roles_of [1; 7]) nothing_fails))
  = Raise no_args_attribute.
Proof.
  destruct (func_mute_raises_on_any_arguments
              (world_of (roles_of [1; 7]) nothing_fails)
              (command "/mute forever and ever") replied
              ADMINISTRATOR ADMINISTRATOR MEMBER) as [E _];
    [reflexivity|cbn; lia|reflexivity|intros tr; reflexivity|reflexivity
    |intros tr; reflexivity|reflexivity|intros tr; reflexivity|reflexivity|].
  rewrite E. reflexivity.
Defined.

(** X23: a mute command of ASCII characters with arguments that replies to
    an administrator, sent by an administrator while the bot is one: after
    the log of the arguments and the lookup of the
    role of the target the handler replies that an administrator cannot be
    muted, logs the exception when the reply cannot be sent, and ends
    normally. *)
Theorem mute_of_administrator_refused (w : World)
    (message reply_message : Message)
    (bot_status actor_status target_status : ChatMemberStatus) :
  Py.isascii (text message) = true ->
  (2 <= List.length (Py.split_maxsplit1 (text message)))%nat ->
  reply_to_message message = Some reply_message ->
  has_role w (chat_id message) (bot_id w) bot_status ->
  in_admin_statuses bot_status = true ->
  has_role w (chat_id message) (id (from_user message)) actor_status ->
  in_admin_statuses actor_status = true ->
  has_role w (chat_id message) (id (from_user reply_message)) target_status ->
  in_admin_statuses target_status = true ->
  let command_text := Py.split_maxsplit1 (text message) in
  let before :=
    [Logged INFO "Mute command received";
     Called (get_chat_member (chat_id message) (bot_id w)) (Ret bot_status);
     Called (get_chat_member (chat_id message) (id (from_user message)))
            (Ret actor_status);
     Logged INFO ("Command text: " ++ Py.repr_list command_text);
     Logged INFO ("Arguments: '" ++ Py.strip (nth 1 command_text "") ++ "'");
     Called (get_chat_member (chat_id message) (id (from_user reply_message)))
            (Ret target_status)] in
  let refusal :=
    message_reply (chat_id message) (message_id message)
      (error_text_markup cannot_mute_admin_text) in
  let delivered := remote w before refusal in
  run (func_mute message) w
  = (Ret tt, (before ++ Called refusal delivered :: send_error_log delivered)%list).
Proof.
  intros _ Hlen Hreply Hbot Hbot_admin Hactor Hactor_admin Htarget Htarget_admin
    command_text before refusal delivered.
  assert ((Z.of_nat (List.length (Py.split_maxsplit1 (text message))) <? 2) = false)
    as Hlong by (apply Z.ltb_ge; lia).
  pose proof (split_second_truthy _ Hlong) as Hargs.
  unfold_commands; unfold_helpers; unfold_M. rewrite Hreply.
  repeat first [progress cbv beta iota zeta | progress cbn [negb app]
               | known_answer | known_role
               | rewrite Hlong | rewrite Hargs].
  fold command_text. fold before. fold refusal. fold delivered.
  destruct delivered as [[]|e]; tidy; reflexivity.
Qed.

Lemma mute_of_administrator_refused_witness :
  let w := world_of (roles_of [1; 7; 9]) nothing_fails in
  existsb (sends (error_text_markup cannot_mute_admin_text))
    (snd (run (func_mute (command "/mute 2h spam")) w)) = true
  /\ fst (run (func_mute (command "/mute 2h spam")) w) = Ret tt.
Proof.
  intros w.
  rewrite (mute_of_administrator_refused w (command "/mute 2h spam") replied
             ADMINISTRATOR ADMINISTRATOR ADMINISTRATOR);
    [split; reflexivity|reflexivity|cbn; lia|reflexivity
    |intros tr; reflexivity|reflexivity
    |intros tr; reflexivity|reflexivity|intros tr; reflexivity|reflexivity].
Defined.

(** ** Ban and unban: the mutation is rejected *)

(** X24: a ban that passes the gate and the check of the target, and that
    the remote service rejects: the handler sends no confirmation; it
    replies with the failure marker and the text of the exception, after
    "Не удалось удалить пользователя" for a bad request and "Произошла
    ошибка" for any other exception, logs the exception, and ends
    normally. *)
Theorem ban_rejected (w : World) (message reply_message : Message)
    (bot_status actor_status target_status : ChatMemberStatus) (e : exn) :
  reply_to_message message = Some reply_message ->
  has_role w (chat_id message) (bot_id w) bot_status ->
  in_admin_statuses bot_status = true ->
  has_role w (chat_id message) (id (from_user message)) actor_status ->
  in_admin_statuses actor_status = true ->
  has_role w (chat_id message) (id (from_user reply_message)) target_status ->
  in_admin_statuses target_status = false ->
  (forall tr,
      remote w tr (ban_chat_member (chat_id message) (id (from_user reply_message)))
      = Raise e) ->
  let before :=
    [Logged INFO "Ban command received";
     Called (get_chat_member (chat_id message) (bot_id w)) (Ret bot_status);
     Called (get_chat_member (chat_id message) (id (from_user message)))
            (Ret actor_status);
     Called (get_chat_member (chat_id message) (id (from_user reply_message)))
            (Ret target_status);
     Called (ban_chat_member (chat_id message) (id (from_user reply_message)))
            (Raise e)] in
  let failure_told :=
    message_reply (chat_id message) (message_id message)
      (error_text_markup (ban_failure_text e)) in
  let delivered := remote w before failure_told in
  run (func_kick message) w
  = (Ret tt,
     (before ++ Called failure_told delivered :: send_error_log delivered
      ++ [Logged ERROR (ban_failure_log e)])%list).
Proof.
  intros Hreply Hbot Hbot_admin Hactor Hactor_admin Htarget Htarget_admin Hban
    before failure_told delivered.
  unfold_commands; unfold_helpers; unfold_M. rewrite Hreply.
  repeat first [progress cbv beta iota zeta | progress cbn [negb app]
               | known_answer | known_role].
  subst delivered failure_told. unfold ban_failure_text, ban_failure_log.
  fold before.
  destruct (exn_class_eqb (exn_kind e) TelegramBadRequest);
    cbv beta iota zeta;
    match goal with
    | |- context [remote w before ?c] => destruct (remote w before c) as [[]|e']
    end; tidy; reflexivity.
Qed.

Lemma ban_rejected_witness :
  run (func_kick (command "/ban"))
      (world_of (roles_of [1; 7]) (failing BanChatMember bad_request))
  = (Ret tt,
     [Logged INFO "Ban command received";
      Called (get_chat_member (-100) 1) (Ret ADMINISTRATOR);
      Called (get_chat_member (-100) 7) (Ret ADMINISTRATOR);
      Called (get_chat_member (-100) 9) (Ret MEMBER);
      Called (ban_chat_member (-100) 9) (Raise bad_request);
      Called (message_reply (-100) 41
                "<b>❌ Не удалось удалить пользователя: Bad Request: user not found</b>")
             (Ret tt);
      Logged ERROR "Failed to kick user: Bad Request: user not found"]).
Proof.
  apply (ban_rejected
           (world_of (roles_of [1; 7]) (failing BanChatMember bad_request))
           (command "/ban") replied ADMINISTRATOR ADMINISTRATOR MEMBER
           bad_request);
    try reflexivity; intros tr; reflexivity.
Defined.

(** X25: an unban that passes the gate and that the remote service
    rejects: the handler sends neither the confirmation nor the invite; it
    replies with the failure marker and the text of the exception, and ends
    normally. *)
Theorem unban_rejected (w : World) (message reply_message : Message)
    (bot_status actor_status : ChatMemberStatus) (e : exn) :
  reply_to_message message = Some reply_message ->
  has_role w (chat_id message) (bot_id w) bot_status ->
  in_admin_statuses bot_status = true ->
  has_role w (chat_id message) (id (from_user message)) actor_status ->
  in_admin_statuses actor_status = true ->
  (forall tr,
      remote w tr (unban_chat_member (chat_id message)
                     (id (from_user reply_message)) true) = Raise e) ->
  let before :=
    [Called (get_chat_member (chat_id message) (bot_id w)) (Ret bot_status);
     Called (get_chat_member (chat_id message) (id (from_user message)))
            (Ret actor_status);
     Called (unban_chat_member (chat_id message)
               (id (from_user reply_message)) true) (Raise e)] in
  let failure_told :=
    message_reply (chat_id message) (message_id message)
      (error_text_markup ("Произошла ошибка: " ++ exn_str e)) in
  let delivered := remote w before failure_told in
  run (func_unban message) w
  = (Ret tt,
     (before ++ Called failure_told delivered :: send_error_log delivered)%list).
Proof.
  intros Hreply Hbot Hbot_admin Hactor Hactor_admin Hunban
    before failure_told delivered.
  unfold_commands; unfold_helpers; unfold_M. rewrite Hreply.
  repeat first [progress cbv beta iota zeta | progress cbn [negb app]
               | known_answer | known_role].
  fold before. fold failure_told. fold delivered.
  destruct delivered as [[]|e']; tidy; reflexivity.
Qed.

Lemma unban_rejected_witness :
  run (func_unban (command "/unban"))
      (world_of (roles_of [1; 7]) (failing UnbanChatMember network_error))
  = (Ret tt,
     [Called (get_chat_member (-100) 1) (Ret ADMINISTRATOR);
      Called (get_chat_member (-100) 7) (Ret ADMINISTRATOR);
      Called (unban_chat_member (-100) 9 true) (Raise network_error);
      Called (message_reply (-100) 41
                "<b>❌ Произошла ошибка: network is unreachable</b>")
             (Ret tt)]).
Proof.
  apply (unban_rejected
           (world_of (roles_of [1; 7]) (failing UnbanChatMember network_error))
           (command "/unban") replied ADMINISTRATOR ADMINISTRATOR network_error);
    try reflexivity; intros tr; reflexivity.
Defined.
